(** * FigmaService: a shallow embedding of [src/services/figma.ts]

    The client is glue around three ambient facilities: the [axios] HTTP
    library, Node's [fs]/[process] modules and the two transformers of
    [./simplify-node-response].  None of them is part of the file, so they
    appear here as parameters (section variables and type-class methods),
    and everything the client itself does -- building URLs, translating
    errors, choosing what to log -- is translated line by line.

    Response bodies whose fields the client reads are taken as they are at
    run time, where the casts of the source are erased: any value that
    [JSON.parse] can return, read with the property lookup of the
    language, prototype chain and [TypeError] included.

    Effects are explicit: a computation of type [M A] takes the trace of
    everything observable that happened so far and returns either a value
    or a thrown JavaScript value, together with the extended trace. *)

From Stdlib Require Import ZArith NArith String Ascii List Lia Strings.Byte PrimFloat.
From stdpp Require Import strings.
Import ListNotations.
Open Scope string_scope.
Open Scope list_scope.
Set Warnings "-register-all".

(** ** JavaScript values the client inspects or throws *)

(** What a response body can be at run time: whatever [JSON.parse] returns
    (or the plain text of a body that is no JSON), and what a property read
    on such a value can find -- nothing ([undefined]), another such value,
    or a function or object of the engine found on a prototype.  An object
    is its own properties in the order of the text; as in [JSON.parse], a
    name that occurs twice has its last value. *)
Inductive Any :=
| JUndefined
| JNull
| JBool (b : bool)
| JNumber (n : float)
| JText (s : string)
| JArray (items : list Any)
| JObject (props : list (string * Any))
| JBuiltin (name : string).

(** [AxiosResponse<T>]: only the two fields the client reads. *)
Module AxiosResponse.
Record t (T : Type) := Build { status : Z; data : T }.
Arguments Build {T} _ _.
Arguments status {T} _.
Arguments data {T} _.
End AxiosResponse.

(** Why the engine throws a [TypeError] in this program: a property was read
    on [null] or [undefined], or an object could not be turned into a
    primitive. *)
Inductive Fault :=
| CannotRead (receiver : Any) (key : string)
| CannotConvert.

(** Everything that travels through [throw] in this file.
    - [AxiosError]: what [axios.get] rejects with; [response] is present
      exactly when the server answered, and its body is any value;
    - [Error]: [new Error(message)] and every other built-in error;
    - [TypeError]: thrown by the engine itself;
    - [FigmaError]: the object literal [{ status, err }] of [~/types/figma]. *)
Inductive JsValue :=
| AxiosError (message : string) (response : option (AxiosResponse.t Any))
| Error (message : string)
| TypeError (fault : Fault)
| FigmaError (status : Z) (err : Any).

Definition is_FigmaError (v : JsValue) : bool :=
  match v with FigmaError _ _ => true | _ => false end.

(** ** Truthiness and string primitives *)

(** [ToBoolean] on a string: the empty string is falsy. *)
Definition truthy_string (s : string) : bool :=
  match s with EmptyString => false | String _ _ => true end.

(** [ToBoolean] on a [number]: [+0], [-0] and [NaN] are falsy. *)
Definition truthy_number (d : float) : bool :=
  negb (is_zero d || is_nan d).

(** [ToBoolean]: [undefined], [null], [false], zero, [NaN] and the empty
    string are falsy; every array, object and function is truthy. *)
Definition ToBoolean (v : Any) : bool :=
  match v with
  | JUndefined | JNull => false
  | JBool b => b
  | JNumber n => truthy_number n
  | JText s => truthy_string s
  | JArray _ | JObject _ | JBuiltin _ => true
  end.

(** [v || d]. *)
Definition or_else (v d : Any) : Any := if ToBoolean v then v else d.

(** [s.startsWith(p)]. *)
Fixpoint starts_with (p s : string) : bool :=
  match p, s with
  | EmptyString, _ => true
  | String a p', String b s' => if Ascii.eqb a b then starts_with p' s' else false
  | String _ _, EmptyString => false
  end.

(** [s.slice(n)] for [n <= s.length]. *)
Fixpoint drop_chars (n : nat) (s : string) : string :=
  match n, s with
  | O, _ => s
  | S n', String _ s' => drop_chars n' s'
  | S _, EmptyString => EmptyString
  end.

(** [s.replace(pat, rep)] with a string pattern: only the first occurrence
    of [pat] is replaced.  ([rep] is taken literally; the only replacement
    the client uses, a colon, holds no dollar pattern.) *)
Fixpoint String_replace (pat rep s : string) : string :=
  if starts_with pat s then rep +:+ drop_chars (String.length pat) s
  else match s with
       | EmptyString => EmptyString
       | String c s' => String c (String_replace pat rep s')
       end.

(** [s.includes(c)] for a single character. *)
Fixpoint includes_char (c : ascii) (s : string) : bool :=
  match s with
  | EmptyString => false
  | String a s' => Ascii.eqb a c || includes_char c s'
  end.

(** ** Observable events and the effect monad *)

Module AxiosRequestConfig.
Record t := Build { headers : list (string * string); responseType : option string }.
End AxiosRequestConfig.

Inductive ConsoleLevel := Log | Debug | Err.

Inductive ConsoleArg :=
| Str (s : string)
| Val (v : JsValue).

Inductive Event :=
| Console (level : ConsoleLevel) (args : list ConsoleArg)
| HttpGet (url : string) (config : AxiosRequestConfig.t)
| FsAccess (path : string)
| FsExists (path : string)
| FsMkdir (path : string)
| FsWrite (path : string) (content : option string).

Definition Trace := list Event.

Inductive Outcome (A : Type) :=
| Return (a : A)
| Throw (e : JsValue).
Arguments Return {A} _.
Arguments Throw {A} _.

Definition M (A : Type) : Type := Trace -> Outcome A * Trace.

Definition ret {A} (a : A) : M A := fun t => (Return a, t).

Definition bind {A B} (c : M A) (k : A -> M B) : M B :=
  fun t => match c t with
           | (Return a, t') => k a t'
           | (Throw e, t') => (Throw e, t')
           end.

Definition throw {A} (e : JsValue) : M A := fun t => (Throw e, t).

(** [try { c } catch (error) { h error }]. *)
Definition try_catch {A} (c : M A) (h : JsValue -> M A) : M A :=
  fun t => match c t with
           | (Return a, t') => (Return a, t')
           | (Throw e, t') => h e t'
           end.

(** The event is recorded; nothing is returned. *)
Definition emit (ev : Event) : M unit := fun t => (Return tt, t ++ [ev]).

(** A call into the environment: the answer may depend on everything that
    happened before, and the call itself is recorded. *)
Definition call {A} (answer : Trace -> Outcome A) (ev : Event) : M A :=
  fun t => (answer t, t ++ [ev]).

(** A read of the environment that leaves no trace. *)
Definition peek {A} (answer : Trace -> Outcome A) : M A :=
  fun t => (answer t, t).

Declare Scope js_scope.
Delimit Scope js_scope with js.
Notation "'do' x <- c ; k" := (bind c (fun x => k))
  (at level 10, x name, c at level 100, k at level 200) : js_scope.
Notation "'run' c ; k" := (bind c (fun _ => k))
  (at level 10, c at level 100, k at level 200) : js_scope.
Open Scope js_scope.

Definition console_log (args : list ConsoleArg) : M unit := emit (Console Log args).
Definition console_debug (args : list ConsoleArg) : M unit := emit (Console Debug args).
Definition console_error (args : list ConsoleArg) : M unit := emit (Console Err args).

(** ** The environment *)

(** [axios.get<T>(url, config)]: resolves with a response or rejects. *)
Class Axios (T : Type) :=
  axios_get : string -> AxiosRequestConfig.t -> Trace -> Outcome (AxiosResponse.t T).

(** [JSON.stringify(value, null, 2)]: a text, [undefined], or a throw
    (a cyclic value, a BigInt). *)
Class Json (V : Type) :=
  JSON_stringify : V -> Outcome (option string).

(** Node's [process] and [fs], as far as [writeLogs] uses them. *)
Record Node := {
  process_env_NODE_ENV : Trace -> option string;
  process_cwd : Trace -> Outcome string;
  fs_accessSync : string -> Trace -> Outcome unit;
  fs_existsSync : string -> Trace -> bool;
  fs_mkdirSync : string -> Trace -> Outcome unit;
  fs_writeFileSync : string -> option string -> Trace -> Outcome unit
}.

(** ** Reading a property *)

(** The names every object inherits from [Object.prototype]. *)
Definition Object_prototype : list string :=
  ["constructor"; "__defineGetter__"; "__defineSetter__"; "hasOwnProperty";
   "__lookupGetter__"; "__lookupSetter__"; "isPrototypeOf"; "propertyIsEnumerable";
   "toString"; "valueOf"; "__proto__"; "toLocaleString"].

Definition inherited (key : string) : bool :=
  existsb (String.eqb key) Object_prototype.

(** The value an object has of its own under [key]; the last one listed. *)
Fixpoint own_property (key : string) (props : list (string * Any)) : option Any :=
  match props with
  | [] => None
  | (k, v) :: rest =>
      match own_property key rest with
      | Some x => Some x
      | None => if String.eqb k key then Some v else None
      end
  end.

(** What the engine alone decides: the property a string, an array, a
    number, a boolean or a built-in has under a key (characters, elements,
    [length], the methods of their prototypes), and the text of a built-in. *)
Class Engine := {
  exotic_property : Any -> string -> Any;
  builtin_text : string -> string
}.

(** [v[key]] and [v.key]: a [TypeError] on [null] and [undefined]; on an
    object its own property, else what [Object.prototype] has under that
    name, else [undefined]. *)
Definition Get `{Engine} (v : Any) (key : string) : Outcome Any :=
  match v with
  | JUndefined | JNull => Throw (TypeError (CannotRead v key))
  | JObject props =>
      Return (match own_property key props with
              | Some x => x
              | None => if inherited key then JBuiltin key else JUndefined
              end)
  | _ => Return (exotic_property v key)
  end.

(** The requests a trace holds, oldest first. *)
Fixpoint http_requests (t : Trace) : list (string * AxiosRequestConfig.t) :=
  match t with
  | [] => []
  | HttpGet url config :: t' => (url, config) :: http_requests t'
  | _ :: t' => http_requests t'
  end.

(** The filesystem calls a trace holds. *)
Definition is_fs_event (ev : Event) : bool :=
  match ev with
  | FsAccess _ | FsExists _ | FsMkdir _ | FsWrite _ _ => true
  | _ => false
  end.

(** [headers[name]] of a request configuration. *)
Fixpoint header (name : string) (hs : list (string * string)) : option string :=
  match hs with
  | [] => None
  | (k, v) :: hs' => if String.eqb k name then Some v else header name hs'
  end.

(** ** [Buffer]: bytes and their base64 text *)

Module Buffer.

(** A [Buffer] is its sequence of bytes. *)
Definition t := list byte.

(** [Buffer.from(data, "binary")] on data that already is a buffer: a copy
    of the same bytes (the encoding argument only matters for strings). *)
Definition from (data : t) : t := data.

(** The base64 alphabet of RFC 4648, section 4. *)
Definition alphabet : string :=
  "ABCDEFGHIJKLMNOPQRSTUVWXYZabcdefghijklmnopqrstuvwxyz0123456789+/".

Definition pad : ascii := "="%char.

(** The character of a six-bit group. *)
Definition digit (n : N) : ascii :=
  match String.get (N.to_nat n) alphabet with
  | Some c => c
  | None => pad
  end.

(** [buf.toString("base64")]: three bytes make four six-bit groups
    ([x >> 2], [(x & 3) << 4 | y >> 4], [(y & 15) << 2 | z >> 6], [z & 63]);
    a last group of one or two bytes is padded with [=]. *)
Fixpoint toString_base64 (buf : t) : string :=
  match buf with
  | [] => ""
  | [x] =>
      let X := Byte.to_N x in
      String (digit (X / 4)) (String (digit (X mod 4 * 16)) (String pad (String pad "")))
  | [x; y] =>
      let X := Byte.to_N x in
      let Y := Byte.to_N y in
      String (digit (X / 4)) (String (digit (X mod 4 * 16 + Y / 16))
        (String (digit (Y mod 16 * 4)) (String pad "")))
  | x :: y :: z :: rest =>
      let X := Byte.to_N x in
      let Y := Byte.to_N y in
      let Z := Byte.to_N z in
      String (digit (X / 4)) (String (digit (X mod 4 * 16 + Y / 16))
        (String (digit (Y mod 16 * 4 + Z / 64)) (String (digit (Z mod 64))
          (toString_base64 rest))))
  end%N.

(** Position of a character in a string. *)
Fixpoint index_of (c : ascii) (s : string) : option N :=
  match s with
  | EmptyString => None
  | String a s' =>
      if Ascii.eqb a c then Some 0%N
      else match index_of c s' with
           | Some i => Some (N.succ i)
           | None => None
           end
  end.

(** The six-bit group of a character of the alphabet. *)
Definition value (c : ascii) : option N := index_of c alphabet.

Definition is_empty (s : string) : bool :=
  match s with EmptyString => true | String _ _ => false end.

(** The bytes of a list of numbers, when each of them is one. *)
Fixpoint bytes_of (ns : list N) : option t :=
  match ns with
  | [] => Some []
  | n :: ns' =>
      match Byte.of_N n, bytes_of ns' with
      | Some x, Some xs => Some (x :: xs)
      | _, _ => None
      end
  end.

(** The decoder of RFC 4648: groups of four characters, padding only in
    the last group; any other text is refused. *)
Fixpoint from_base64 (s : string) : option t :=
  match s with
  | EmptyString => Some []
  | String a (String b (String c (String d rest))) =>
      match value a, value b with
      | Some va, Some vb =>
          let X := (va * 4 + vb / 16)%N in
          if Ascii.eqb c pad then
            if Ascii.eqb d pad && is_empty rest then bytes_of [X] else None
          else match value c with
               | None => None
               | Some vc =>
                   let Y := (vb mod 16 * 16 + vc / 4)%N in
                   if Ascii.eqb d pad then
                     if is_empty rest then bytes_of [X; Y] else None
                   else match value d, from_base64 rest with
                        | Some vd, Some bs =>
                            let Z := (vc mod 4 * 64 + vd)%N in
                            match bytes_of [X; Y; Z] with
                            | Some xs => Some (xs ++ bs)
                            | None => None
                            end
                        | _, _ => None
                        end
               end
      | _, _ => None
      end
  | _ => None
  end.

End Buffer.

(** ** The host: everything the client finds around itself

    The three payload types are opaque to the client; [axios.get] is typed
    by the payload the caller asks for ([request<T>]), hence one channel per
    payload type; the images endpoint and every error response are read
    as they arrive, with no shape assumed.  [Number_toString] is the text a
    template literal gives a number. *)
Class Host := {
  GetFileResponse : Type;
  GetFileNodesResponse : Type;
  SimplifiedDesign : Type;
  axios_file :: Axios GetFileResponse;
  axios_nodes :: Axios GetFileNodesResponse;
  axios_images :: Axios Any;
  axios_buffer :: Axios Buffer.t;
  json_file :: Json GetFileResponse;
  json_nodes :: Json GetFileNodesResponse;
  json_design :: Json SimplifiedDesign;
  parseFigmaFileResponse : GetFileResponse -> Outcome SimplifiedDesign;
  parseFigmaResponse : GetFileNodesResponse -> Outcome SimplifiedDesign;
  Number_toString : float -> string;
  engine :: Engine;
  node : Node
}.

(** ** The client *)

Record FigmaService := { apiKey : string; baseUrl : string }.

(** [new FigmaService(apiKey)]. *)
Definition new_FigmaService (apiKey : string) : FigmaService :=
  {| apiKey := apiKey; baseUrl := "https://api.figma.com/v1" |}.

(** [a !== b] for [a : string | undefined] and a string [b]. *)
Definition strict_neq (a : option string) (b : string) : bool :=
  match a with
  | Some s => negb (String.eqb s b)
  | None => true
  end.

(** A pure computation that may throw, run inside [M]. *)
Definition lift {A} (o : Outcome A) : M A := fun t => (o, t).

(** The configuration [request] passes to [axios.get]. *)
Definition request_config (self : FigmaService) : AxiosRequestConfig.t :=
  {| AxiosRequestConfig.headers := [("X-Figma-Token", apiKey self)];
     AxiosRequestConfig.responseType := None |}.

(** The [catch] clause of [request].  The cast of the body is erased at run
    time: [err] is read off whatever the body is. *)
Definition request_catch `{Engine} {T} (error : JsValue) : M T :=
  match error with
  | AxiosError _ (Some response) =>
      let status := AxiosResponse.status response in
      do err <- lift (Get (AxiosResponse.data response) "err");
      throw (FigmaError status (or_else err (JText "Unknown error")))
  | _ => throw (Error "Failed to make request to Figma API")
  end.

Definition request `{Engine} {T} `{Axios T} (self : FigmaService) (endpoint : string) : M T :=
  try_catch
    (run console_log [Str ("Calling " +:+ baseUrl self +:+ endpoint)];
     do response <- call (axios_get (baseUrl self +:+ endpoint) (request_config self))
                         (HttpGet (baseUrl self +:+ endpoint) (request_config self));
     ret (AxiosResponse.data response))
    request_catch.

(** The trace at the moment [request] calls [axios.get]. *)
Definition at_call (self : FigmaService) (endpoint : string) (t : Trace) : Trace :=
  t ++ [Console Log [Str ("Calling " +:+ baseUrl self +:+ endpoint)]].

(** What [axios.get] answers to the call [request] makes. *)
Definition answer {T} `{Axios T} (self : FigmaService) (endpoint : string) (t : Trace)
  : Outcome (AxiosResponse.t T) :=
  axios_get (baseUrl self +:+ endpoint) (request_config self) (at_call self endpoint t).

(** The trace once [axios.get] has answered. *)
Definition after_call (self : FigmaService) (endpoint : string) (t : Trace) : Trace :=
  at_call self endpoint t ++ [HttpGet (baseUrl self +:+ endpoint) (request_config self)].

Definition writeLogs {V} `{Json V} (node : Node) (name : string) (value : V) : M unit :=
  try_catch
    (do NODE_ENV <- peek (fun t => Return (process_env_NODE_ENV node t));
     if strict_neq NODE_ENV "development" then ret tt else
     let logsDir := "logs" in
     do writable <-
       try_catch
         (do cwd <- peek (process_cwd node);
          run call (fs_accessSync node cwd) (FsAccess cwd);
          ret true)
         (fun error =>
            run console_log [Str "Failed to write logs:"; Val error];
            ret false);
     if negb writable then ret tt else
     do present <- call (fun t => Return (fs_existsSync node logsDir t)) (FsExists logsDir);
     run (if negb present
          then call (fs_mkdirSync node logsDir) (FsMkdir logsDir)
          else ret tt);
     do text <- lift (JSON_stringify value);
     call (fs_writeFileSync node (logsDir +:+ "/" +:+ name) text)
          (FsWrite (logsDir +:+ "/" +:+ name) text))
    (fun error => console_debug [Str "Failed to write logs:"; Val error]).

Section Client.

Context `{Host}.

(** The template [`${sep}depth=${depth}`], or nothing when [depth] is falsy. *)
Definition depth_query (sep : string) (depth : option float) : string :=
  match depth with
  | Some d => if truthy_number d then sep +:+ "depth=" +:+ Number_toString d else ""
  | None => ""
  end.

Definition getFile_endpoint (fileKey : string) (depth : option float) : string :=
  "/files/" +:+ fileKey +:+ depth_query "?" depth.

Definition getFile (self : FigmaService) (fileKey : string) (depth : option float)
  : M SimplifiedDesign :=
  try_catch
    (let endpoint := getFile_endpoint fileKey depth in
     run console_log [Str ("Calling " +:+ baseUrl self +:+ endpoint)];
     do response <- request self endpoint;
     run console_log [Str "Got response"];
     do simplifiedResponse <- lift (parseFigmaFileResponse response);
     run writeLogs node "figma-raw.json" response;
     run writeLogs node "figma-simplified.json" simplifiedResponse;
     ret simplifiedResponse)
    (fun e =>
       run console_log [Str "hi?"];
       run console_error [Str "Failed to get file:"; Val e];
       throw e).

Definition getNode_endpoint (fileKey nodeId : string) (depth : option float) : string :=
  "/files/" +:+ fileKey +:+ "/nodes?ids=" +:+ nodeId +:+ depth_query "&" depth.

Definition getNode (self : FigmaService) (fileKey nodeId : string) (depth : option float)
  : M SimplifiedDesign :=
  let endpoint := getNode_endpoint fileKey nodeId depth in
  do response <- request self endpoint;
  run writeLogs node "figma-raw.json" response;
  do simplifiedResponse <- lift (parseFigmaResponse response);
  run writeLogs node "figma-simplified.json" simplifiedResponse;
  ret simplifiedResponse.

Definition formatNodeId (nodeId : string) : string := String_replace "-" ":" nodeId.

Definition getNodeImage_endpoint (fileKey nodeId : string) : string :=
  "/images/" +:+ fileKey +:+ "?ids=" +:+ formatNodeId nodeId +:+ "&scale=1&format=png".

(** [console.error(`Failed to get image for node ${nodeId} from file ${fileKey}:`, error)]. *)
Definition image_failure (fileKey nodeId : string) (error : JsValue) : Event :=
  Console Err
    [Str ("Failed to get image for node " +:+ nodeId +:+ " from file " +:+ fileKey +:+ ":");
     Val error].

(** [ToString]: an array is its elements joined by commas ([null] and
    [undefined] elements are empty); an object is [[object Object]] unless
    it has a [toString] of its own, which -- coming from JSON -- cannot be
    called, so that nothing turns the object into a primitive. *)
Fixpoint ToString (v : Any) : Outcome string :=
  match v with
  | JUndefined => Return "undefined"
  | JNull => Return "null"
  | JBool b => Return (if b then "true" else "false")
  | JNumber n => Return (Number_toString n)
  | JText s => Return s
  | JArray items =>
      (fix join (l : list Any) : Outcome string :=
         match l with
         | [] => Return ""
         | x :: rest =>
             match (match x with
                    | JUndefined | JNull => Return ""
                    | _ => ToString x
                    end) with
             | Throw e => Throw e
             | Return first =>
                 match rest with
                 | [] => Return first
                 | _ :: _ =>
                     match join rest with
                     | Throw e => Throw e
                     | Return others => Return (first +:+ "," +:+ others)
                     end
                 end
             end
         end) items
  | JObject props =>
      match own_property "toString" props with
      | Some _ => Throw (TypeError CannotConvert)
      | None => Return "[object Object]"
      end
  | JBuiltin name => Return (builtin_text name)
  end.

(** [new Error(message)]. *)
Definition new_Error (message : Any) : Outcome JsValue :=
  match message with
  | JUndefined => Return (Error "")
  | _ => match ToString message with
         | Return text => Return (Error text)
         | Throw e => Throw e
         end
  end.

Definition getNodeImage (self : FigmaService) (fileKey nodeId : string) : M Any :=
  try_catch
    (let formattedNodeId := formatNodeId nodeId in
     let endpoint := getNodeImage_endpoint fileKey nodeId in
     do response <- request self endpoint;
     do err <- lift (Get response "err");
     run (if ToBoolean err
          then (do message <- lift (Get response "err");
                do error <- lift (new_Error message);
                throw error)
          else ret tt);
     do images <- lift (Get response "images");
     do imageUrl <- lift (Get images formattedNodeId);
     run (if negb (ToBoolean imageUrl)
          then throw (Error ("No image URL found for node " +:+ formattedNodeId))
          else ret tt);
     ret imageUrl)
    (fun error =>
       run emit (image_failure fileKey nodeId error);
       throw error).

(** The configuration [fetchImageData] passes to [axios.get]. *)
Definition image_config : AxiosRequestConfig.t :=
  {| AxiosRequestConfig.headers := [];
     AxiosRequestConfig.responseType := Some "arraybuffer" |}.

Definition fetchImageData (self : FigmaService) (imageUrl : string) : M string :=
  try_catch
    (do response <- call (axios_get imageUrl image_config) (HttpGet imageUrl image_config);
     let base64 := Buffer.toString_base64 (Buffer.from (AxiosResponse.data response)) in
     ret base64)
    (fun error =>
       run console_error [Str "Failed to fetch image data:"; Val error];
       throw error).

End Client.

(** ** How the operations are used: a caller's script *)

(** One call of a public operation; the caller catches whatever it throws. *)
Inductive Call :=
| CallGetFile (fileKey : string) (depth : option float)
| CallGetNode (fileKey nodeId : string) (depth : option float)
| CallGetNodeImage (fileKey nodeId : string)
| CallFetchImageData (imageUrl : string).

(** The trace after a call, whatever its outcome. *)
Definition perform `{Host} (self : FigmaService) (c : Call) (t : Trace) : Trace :=
  match c with
  | CallGetFile fileKey depth => snd (getFile self fileKey depth t)
  | CallGetNode fileKey nodeId depth => snd (getNode self fileKey nodeId depth t)
  | CallGetNodeImage fileKey nodeId => snd (getNodeImage self fileKey nodeId t)
  | CallFetchImageData imageUrl => snd (fetchImageData self imageUrl t)
  end.

Fixpoint perform_all `{Host} (self : FigmaService) (cs : list Call) (t : Trace) : Trace :=
  match cs with
  | [] => t
  | c :: cs' => perform_all self cs' (perform self c t)
  end.

(** The same host with another [process]/[fs] runtime. *)
Definition with_node (h : Host) (n : Node) : Host :=
  {| GetFileResponse := @GetFileResponse h;
     GetFileNodesResponse := @GetFileNodesResponse h;
     SimplifiedDesign := @SimplifiedDesign h;
     axios_file := @axios_file h;
     axios_nodes := @axios_nodes h;
     axios_images := @axios_images h;
     axios_buffer := @axios_buffer h;
     json_file := @json_file h;
     json_nodes := @json_nodes h;
     json_design := @json_design h;
     parseFigmaFileResponse := @parseFigmaFileResponse h;
     parseFigmaResponse := @parseFigmaResponse h;
     Number_toString := @Number_toString h;
     node := n |}.

(** The depth parameter as the specification words it: present whenever a
    depth is supplied. *)
Definition claimed_depth_query `{Host} (sep : string) (depth : option float) : string :=
  match depth with
  | Some d => sep +:+ "depth=" +:+ Number_toString d
  | None => ""
  end.

(** What a call is expected to put on the wire: API calls go to the base URL
    and carry the credential; the image download goes to the given URL with
    the bare [arraybuffer] configuration. *)
Definition wire_ok (self : FigmaService) (c : Call) (r : string * AxiosRequestConfig.t) : Prop :=
  match c with
  | CallFetchImageData imageUrl => r = (imageUrl, image_config)
  | _ =>
      starts_with (baseUrl self) (fst r) = true /\
      header "X-Figma-Token" (AxiosRequestConfig.headers (snd r)) = Some (apiKey self)
  end.

(** ** A sample host, for running the client on concrete inputs *)

Module Sample.

(** A process with the given [NODE_ENV], a writable working directory and
    no [logs] directory yet. *)
Definition writable_node (NODE_ENV : option string) : Node :=
  {| process_env_NODE_ENV := fun _ => NODE_ENV;
     process_cwd := fun _ => Return "/srv/app";
     fs_accessSync := fun _ _ => Return tt;
     fs_existsSync := fun _ _ => false;
     fs_mkdirSync := fun _ _ => Return tt;
     fs_writeFileSync := fun _ _ _ => Return tt |}.

(** A process in development mode whose working directory is read-only. *)
Definition readonly_node : Node :=
  {| process_env_NODE_ENV := fun _ => Some "development";
     process_cwd := fun _ => Return "/srv/app";
     fs_accessSync := fun _ _ => Throw (Error "EACCES: permission denied, access '/srv/app'");
     fs_existsSync := fun _ _ => false;
     fs_mkdirSync := fun _ _ => Throw (Error "EACCES: permission denied, mkdir 'logs'");
     fs_writeFileSync := fun _ _ _ => Throw (Error "EACCES: permission denied, open") |}.

(** The text of the few numbers the examples pass as a depth. *)
Definition number_text (d : float) : string :=
  if (d =? 0)%float then "0"
  else if (d =? 1)%float then "1"
  else if (d =? 2)%float then "2"
  else "NaN".

(** No run below reads a property of a string, an array, a number or a
    boolean, so this engine need not know them. *)
Definition bare_engine : Engine :=
  {| exotic_property := fun _ _ => JUndefined;
     builtin_text := fun name => "function " +:+ name +:+ "() { [native code] }" |}.

(** Payloads are texts; the transformers tag them. *)
Definition host (nd : Node)
    (file : Outcome (AxiosResponse.t string))
    (images : Outcome (AxiosResponse.t Any))
    (buffer : Outcome (AxiosResponse.t Buffer.t)) : Host :=
  {| GetFileResponse := string;
     GetFileNodesResponse := string;
     SimplifiedDesign := string;
     axios_file := fun _ _ _ => file;
     axios_nodes := fun _ _ _ => file;
     axios_images := fun _ _ _ => images;
     axios_buffer := fun _ _ _ => buffer;
     json_file := fun v => Return (Some v);
     json_nodes := fun v => Return (Some v);
     json_design := fun v => Return (Some v);
     parseFigmaFileResponse := fun r => Return ("file:" +:+ r);
     parseFigmaResponse := fun r => Return ("nodes:" +:+ r);
     Number_toString := number_text;
     engine := bare_engine;
     node := nd |}.

Definition ok {T} (body : T) : Outcome (AxiosResponse.t T) :=
  Return (AxiosResponse.Build 200 body).

(** The server answered with an error status and the given body. *)
Definition refused {T} (status : Z) (body : Any) : Outcome (AxiosResponse.t T) :=
  Throw (AxiosError "Request failed" (Some (AxiosResponse.Build status body))).

(** The body [{"err": text}]. *)
Definition err_body (text : string) : Any := JObject [("err", JText text)].

(** The body [{"err": err, "images": {"1:2": "https://cdn.example/1-2.png"}}]. *)
Definition image_body (err : Any) : Any :=
  JObject [("err", err);
           ("images", JObject [("1:2", JText "https://cdn.example/1-2.png")])].

(** No answer at all. *)
Definition unreachable {T} : Outcome (AxiosResponse.t T) :=
  Throw (AxiosError "Network Error" None).

(** The body [{"err": null, "images": {}}]. *)
Definition no_images : Any := JObject [("err", JNull); ("images", JObject [])].

Definition client : FigmaService := new_FigmaService "figd_secret".

(** Everything succeeds; not in development mode. *)
Definition plain : Host :=
  host (writable_node None) (ok "{}") (ok no_images) (ok [x89; x50; x4e; x47]).

(** The server answers 404 with [{"err": "file not found"}]. *)
Definition not_found : Host :=
  host (writable_node None) (refused 404 (err_body "file not found"))
       (refused 404 (err_body "file not found")) unreachable.

(** The image endpoint answers with an error text and a mapping. *)
Definition erring : Host :=
  host (writable_node None) (ok "{}") (ok (image_body (JText "Invalid node"))) (ok []).

(** The image endpoint answers with a URL for node [1:2]. *)
Definition rendered : Host :=
  host (writable_node None) (ok "{}") (ok (image_body JNull)) (ok []).

End Sample.

(** ** What reaches the disk and the console *)

(** The filesystem calls of a trace, oldest first. *)
Definition fs_calls (t : Trace) : list Event := List.filter is_fs_event t.

(** Where an event may reach, given the files that may be written: the
    access check is on the directory [process.cwd()] names at that moment,
    the only directory looked for or created is [logs], and a write goes
    to one of [files]. *)
Definition event_confined (nd : Node) (files : list string) (t : Trace) (ev : Event) : Prop :=
  match ev with
  | Console _ _ => True
  | HttpGet _ _ => True
  | FsAccess p => process_cwd nd t = Return p
  | FsExists p => p = "logs"
  | FsMkdir p => p = "logs"
  | FsWrite p _ => In p files
  end.

(** Every event of [evs], happening after [t], is confined. *)
Fixpoint confined (nd : Node) (files : list string) (t : Trace) (evs : list Event) : Prop :=
  match evs with
  | [] => True
  | ev :: rest => event_confined nd files t ev /\ confined nd files (t ++ [ev]) rest
  end.

(** The two files the client dumps payloads to. *)
Definition dump_files : list string := ["logs/figma-raw.json"; "logs/figma-simplified.json"].

(** The files a trace shows written, oldest first, each with its content. *)
Fixpoint written (t : Trace) : list (string * option string) :=
  match t with
  | [] => []
  | FsWrite path content :: t' => (path, content) :: written t'
  | _ :: t' => written t'
  end.

(** [console.error("Failed to get file:", e)], after the line [hi?]. *)
Definition file_failure (e : JsValue) : list Event :=
  [Console Log [Str "hi?"]; Console Err [Str "Failed to get file:"; Val e]].

(** [console.error("Failed to fetch image data:", error)]. *)
Definition download_failure (error : JsValue) : Event :=
  Console Err [Str "Failed to fetch image data:"; Val error].

(** The line with which both [catch] clauses of [writeLogs] report. *)
Definition log_failure (level : ConsoleLevel) (error : JsValue) : Event :=
  Console level [Str "Failed to write logs:"; Val error].

(** ** More hosts for concrete runs *)

Module Scenario.

(** Development mode, writable working directory, [logs] already there. *)
Definition settled_node : Node :=
  {| process_env_NODE_ENV := fun _ => Some "development";
     process_cwd := fun _ => Return "/srv/app";
     fs_accessSync := fun _ _ => Return tt;
     fs_existsSync := fun _ _ => true;
     fs_mkdirSync := fun _ _ => Throw (Error "EEXIST: file already exists, mkdir 'logs'");
     fs_writeFileSync := fun _ _ _ => Return tt |}.

(** Development mode, writable working directory, but [logs] cannot be made. *)
Definition full_disk_node : Node :=
  {| process_env_NODE_ENV := fun _ => Some "development";
     process_cwd := fun _ => Return "/srv/app";
     fs_accessSync := fun _ _ => Return tt;
     fs_existsSync := fun _ _ => false;
     fs_mkdirSync := fun _ _ => Throw (Error "ENOSPC: no space left on device, mkdir 'logs'");
     fs_writeFileSync := fun _ _ _ => Return tt |}.

(** Whether [logs] was created earlier in the trace. *)
Definition created (t : Trace) : bool :=
  existsb (fun ev => match ev with FsMkdir p => String.eqb p "logs" | _ => false end) t.

(** Development mode on a disk that starts without [logs]: the directory is
    there once it has been made, and making it again fails. *)
Definition fresh_disk : Node :=
  {| process_env_NODE_ENV := fun _ => Some "development";
     process_cwd := fun _ => Return "/srv/app";
     fs_accessSync := fun _ _ => Return tt;
     fs_existsSync := fun _ t => created t;
     fs_mkdirSync := fun _ t =>
       if created t then Throw (Error "EEXIST: file already exists, mkdir 'logs'")
       else Return tt;
     fs_writeFileSync := fun _ _ t =>
       if created t then Return tt
       else Throw (Error "ENOENT: no such file or directory, open") |}.

(** The server answers, and both transformers choke on the payload. *)
Definition broken_transformer (nd : Node) : Host :=
  {| GetFileResponse := string;
     GetFileNodesResponse := string;
     SimplifiedDesign := string;
     axios_file := fun _ _ _ => Sample.ok "{}";
     axios_nodes := fun _ _ _ => Sample.ok "{}";
     axios_images := fun _ _ _ => Sample.ok Sample.no_images;
     axios_buffer := fun _ _ _ => Sample.ok [];
     json_file := fun v => Return (Some v);
     json_nodes := fun v => Return (Some v);
     json_design := fun v => Return (Some v);
     parseFigmaFileResponse :=
       fun _ => Throw (Error "Cannot read properties of undefined (reading 'children')");
     parseFigmaResponse :=
       fun _ => Throw (Error "Cannot read properties of undefined (reading 'children')");
     Number_toString := Sample.number_text;
     engine := Sample.bare_engine;
     node := nd |}.

(** The image endpoint answers with an empty [err] and a URL for [1:2]. *)
Definition empty_err : Host :=
  Sample.host (Sample.writable_node None) (Sample.ok "{}")
    (Sample.ok (Sample.image_body (JText ""))) (Sample.ok []).

(** The server answers 500 with the JSON body [null]. *)
Definition null_body : Host :=
  Sample.host (Sample.writable_node None) (Sample.refused 500 JNull)
    (Sample.refused 500 JNull) Sample.unreachable.

(** The image endpoint answers [{"err": null}], with no [images] at all. *)
Definition no_mapping : Host :=
  Sample.host (Sample.writable_node None) (Sample.ok "{}")
    (Sample.ok (JObject [("err", JNull)])) (Sample.ok []).

(** [axios.get] throws something that is no [AxiosError]. *)
Definition invalid_url : Host :=
  Sample.host (Sample.writable_node None) (Throw (Error "Invalid URL"))
    (Throw (Error "Invalid URL")) (Throw (Error "Invalid URL")).

(** A development-mode host on a fresh disk where every request succeeds. *)
Definition development : Host :=
  Sample.host fresh_disk (Sample.ok "{}")
    (Sample.ok Sample.no_images) (Sample.ok [x89; x50; x4e; x47]).

End Scenario.

(** * Properties *)

(** ** Traces *)

Lemma http_requests_app (t1 t2 : Trace) :
  http_requests (t1 ++ t2) = http_requests t1 ++ http_requests t2.
Proof.
  induction t1 as [|ev t1 IH]; simpl; [reflexivity|].
  destruct ev; simpl; rewrite ?IH; reflexivity.
Qed.

(** Unfolds the monad down to pairs of an outcome and a trace. *)
Ltac unfold_M :=
  unfold console_log, console_debug, console_error in *;
  unfold bind, ret, throw, try_catch, emit, call, peek, lift in *.

(** ** The request helper *)

Section Request.

Context `{Engine} {T : Type} `{Axios T}.
Variable self : FigmaService.
Variable endpoint : string.

Lemma request_run (t : Trace) :
  request self endpoint t =
  match answer self endpoint t with
  | Return response => (Return (AxiosResponse.data response), after_call self endpoint t)
  | Throw error => request_catch error (after_call self endpoint t)
  end.
Proof.
  unfold request, answer, after_call, at_call. unfold_M. simpl.
  destruct (axios_get _ _ _); reflexivity.
Qed.

(** The [catch] clause on an error that carries a response. *)
Lemma request_catch_response (m : string) (response : AxiosResponse.t Any) (t : Trace) :
  request_catch (T:=T) (AxiosError m (Some response)) t =
  (match Get (AxiosResponse.data response) "err" with
   | Return err =>
       Throw (FigmaError (AxiosResponse.status response)
                (or_else err (JText "Unknown error")))
   | Throw e => Throw e
   end, t).
Proof.
  unfold request_catch. unfold_M.
  destruct (Get (AxiosResponse.data response) "err"); reflexivity.
Qed.

Lemma request_catch_run (error : JsValue) (t : Trace) :
  exists e, request_catch (T:=T) error t = (Throw e, t).
Proof.
  destruct error as [m [r|]|m|f|s m].
  - rewrite request_catch_response.
    destruct (Get (AxiosResponse.data r) "err"); eauto.
  - simpl. unfold throw. eauto.
  - simpl. unfold throw. eauto.
  - simpl. unfold throw. eauto.
  - simpl. unfold throw. eauto.
Qed.

Lemma request_trace (t : Trace) :
  snd (request self endpoint t) = after_call self endpoint t.
Proof.
  rewrite request_run. destruct (answer self endpoint t) as [r|e]; [reflexivity|].
  destruct (request_catch_run e (after_call self endpoint t)) as [e' ->]. reflexivity.
Qed.

(** Reading a property fails on [null] and [undefined] only. *)
Lemma Get_defined (v : Any) (key : string) :
  v <> JNull -> v <> JUndefined -> exists x, Get v key = Return x.
Proof.
  intros Hnull Hundef. destruct v; simpl; eauto; congruence.
Qed.

(** C1, as the code has it. When the server answers with an error response
    whose body is neither [null] nor [undefined], [request] throws the
    structured error: its status is the response's status and its message
    is the [err] read off the body, or "Unknown error" when that is falsy.
    For a body that is an object this means: the object's own [err] when it
    is a non-empty text, and "Unknown error" when [err] is missing or
    empty.  When no response was received, [request] throws the generic
    [Error], which is not of the structured kind. *)
Theorem request_error_translation (t : Trace) :
  (forall m response,
      answer self endpoint t = Throw (AxiosError m (Some response)) ->
      AxiosResponse.data response <> JNull ->
      AxiosResponse.data response <> JUndefined ->
      exists err message,
        Get (AxiosResponse.data response) "err" = Return err /\
        message = (if ToBoolean err then err else JText "Unknown error") /\
        fst (request self endpoint t) =
          Throw (FigmaError (AxiosResponse.status response) message) /\
        (forall props e,
            AxiosResponse.data response = JObject props ->
            own_property "err" props = Some (JText e) ->
            e <> "" -> message = JText e) /\
        (forall props,
            AxiosResponse.data response = JObject props ->
            own_property "err" props = None \/
            own_property "err" props = Some (JText "") ->
            message = JText "Unknown error")) /\
  (forall m,
      answer self endpoint t = Throw (AxiosError m None) ->
      fst (request self endpoint t) = Throw (Error "Failed to make request to Figma API") /\
      is_FigmaError (Error "Failed to make request to Figma API") = false).
Proof.
  split.
  - intros m response Ha Hnull Hundef.
    destruct (Get_defined _ "err" Hnull Hundef) as [err Herr].
    exists err. eexists. split; [exact Herr|]. split; [reflexivity|].
    split; [|split].
    + rewrite request_run, Ha, request_catch_response, Herr. reflexivity.
    + intros props e Hbody Hown Hne. rewrite Hbody in Herr. simpl in Herr.
      rewrite Hown in Herr. injection Herr as <-.
      destruct e; [congruence|reflexivity].
    + intros props Hbody Hown. rewrite Hbody in Herr. simpl in Herr.
      destruct Hown as [Hown|Hown]; rewrite Hown in Herr; injection Herr as <-;
        reflexivity.
  - intros m Ha. rewrite request_run, Ha. split; reflexivity.
Qed.

End Request.

Lemma http_requests_after_call (self : FigmaService) (endpoint : string) (t : Trace) :
  http_requests (after_call self endpoint t) =
  http_requests t ++ [(baseUrl self +:+ endpoint, request_config self)].
Proof.
  unfold after_call, at_call. rewrite !http_requests_app. simpl.
  rewrite app_nil_r. reflexivity.
Qed.

(** ** Node identifiers *)

Lemma formatNodeId_cons (c : ascii) (s : string) :
  formatNodeId (String c s) =
  if Ascii.eqb c "-" then String ":" s else String c (formatNodeId s).
Proof.
  unfold formatNodeId. cbn [String_replace starts_with].
  rewrite (Ascii.eqb_sym "-" c).
  destruct (Ascii.eqb c "-"); reflexivity.
Qed.

Lemma formatNodeId_no_hyphen (s : string) :
  includes_char "-" s = false -> formatNodeId s = s.
Proof.
  induction s as [|c s IH]; [reflexivity|].
  simpl. rewrite formatNodeId_cons.
  destruct (Ascii.eqb c "-"); simpl; [discriminate|].
  intros Hs. rewrite IH; [reflexivity|assumption].
Qed.

Lemma formatNodeId_first_hyphen (s : string) :
  includes_char "-" s = true ->
  exists pre post,
    s = pre +:+ String "-" post /\
    includes_char "-" pre = false /\
    formatNodeId s = pre +:+ String ":" post.
Proof.
  induction s as [|c s IH]; [discriminate|].
  simpl. rewrite formatNodeId_cons.
  destruct (Ascii.eqb_spec c "-") as [->|Hne]; simpl.
  - intros _. exists "", s. repeat split.
  - intros Hs. destruct (IH Hs) as (pre & post & -> & Hpre & ->).
    exists (String c pre), post. simpl.
    destruct (Ascii.eqb_spec c "-"); [contradiction|]. repeat split. assumption.
Qed.

(** ** Fetching an image URL *)

Section GetNodeImage.

Context `{Host}.
Variable self : FigmaService.
Variables fileKey nodeId : string.

Local Abbreviation endpoint := (getNodeImage_endpoint fileKey nodeId).

(** Case analysis on every value [getNodeImage] inspects. *)
Ltac split_reads :=
  repeat match goal with
         | |- context [match ?x with _ => _ end] =>
             lazymatch x with
             | context [match _ with _ => _ end] => fail
             | _ => destruct x eqn:?; simpl
             end
         end.

(** Every failure is reported once, with the value thrown; a success adds
    nothing to what [request] left. *)
Lemma getNodeImage_trace (t : Trace) :
  match fst (getNodeImage self fileKey nodeId t) with
  | Return _ =>
      snd (getNodeImage self fileKey nodeId t) = after_call self endpoint t
  | Throw e =>
      snd (getNodeImage self fileKey nodeId t) =
        after_call self endpoint t ++ [image_failure fileKey nodeId e]
  end.
Proof.
  unfold getNodeImage. unfold_M.
  pose proof (request_trace (T:=Any) self endpoint t) as Ht.
  destruct (request (T:=Any) self endpoint t) as [[r|e] t']; simpl in Ht; subst t'; simpl;
    [|reflexivity].
  split_reads; reflexivity.
Qed.

Lemma getNodeImage_http_requests (t : Trace) :
  http_requests (snd (getNodeImage self fileKey nodeId t)) =
  http_requests t ++ [(baseUrl self +:+ endpoint, request_config self)].
Proof.
  pose proof (getNodeImage_trace t) as Hlog.
  destruct (fst (getNodeImage self fileKey nodeId t)); rewrite Hlog;
    rewrite ?http_requests_app, http_requests_after_call; simpl;
    rewrite ?app_nil_r; reflexivity.
Qed.

(** C2. The identifier placed in the request URL is the node id with its
    first hyphen, and only that one, turned into a colon; an id without a
    hyphen is sent as it is. *)
Theorem getNodeImage_normalizes_first_hyphen (t : Trace) :
  http_requests (snd (getNodeImage self fileKey nodeId t)) =
    http_requests t ++
    [(baseUrl self +:+ "/images/" +:+ fileKey +:+ "?ids=" +:+ formatNodeId nodeId
        +:+ "&scale=1&format=png",
      request_config self)] /\
  (if includes_char "-" nodeId
   then exists pre post,
          nodeId = pre +:+ String "-" post /\
          includes_char "-" pre = false /\
          formatNodeId nodeId = pre +:+ String ":" post
   else formatNodeId nodeId = nodeId) /\
  formatNodeId "123-456" = "123:456".
Proof.
  split; [apply getNodeImage_http_requests|]. split; [|reflexivity].
  destruct (includes_char "-" nodeId) eqn:Hin.
  - apply formatNodeId_first_hyphen, Hin.
  - apply formatNodeId_no_hyphen, Hin.
Qed.

(** C3. When the response carries a non-empty [err], the operation throws
    an [Error] with that text, whatever else the body holds: the outcome and
    the trace are fixed by [err] alone, and [images] is never read. *)
Theorem getNodeImage_error_field (t : Trace) (response : AxiosResponse.t Any)
    (message : string) :
  answer self endpoint t = Return response ->
  Get (AxiosResponse.data response) "err" = Return (JText message) ->
  message <> "" ->
  getNodeImage self fileKey nodeId t =
    (Throw (Error message),
     after_call self endpoint t ++ [image_failure fileKey nodeId (Error message)]).
Proof.
  intros Ha Herr Hne. unfold getNodeImage. unfold_M.
  rewrite request_run, Ha. cbn -[Get]. rewrite Herr. cbn -[Get].
  destruct message; [congruence|]. reflexivity.
Qed.

End GetNodeImage.

(** ** Base64 *)

Section Base64.

Import Buffer.
Local Open Scope N_scope.

Ltac div_lia := zify; Z.to_euclidean_division_equations; lia.

Lemma below_64_listed (n : N) : n < 64 -> In n (List.map N.of_nat (seq 0 64)).
Proof.
  intros Hn. rewrite <- (N2Nat.id n). apply in_map, in_seq. lia.
Qed.

Lemma value_digit (n : N) : n < 64 -> value (digit n) = Some n.
Proof.
  intros Hn.
  assert (Hall : forallb (fun k => match value (digit k) with
                                   | Some m => N.eqb m k
                                   | None => false
                                   end) (List.map N.of_nat (seq 0 64)) = true)
    by (vm_compute; reflexivity).
  rewrite forallb_forall in Hall. specialize (Hall n (below_64_listed n Hn)).
  destruct (value (digit n)) as [m|]; [|discriminate].
  apply N.eqb_eq in Hall. congruence.
Qed.

Lemma digit_not_pad (n : N) : n < 64 -> Ascii.eqb (digit n) pad = false.
Proof.
  intros Hn.
  assert (Hall : forallb (fun k => negb (Ascii.eqb (digit k) pad))
                   (List.map N.of_nat (seq 0 64)) = true)
    by (vm_compute; reflexivity).
  rewrite forallb_forall in Hall. specialize (Hall n (below_64_listed n Hn)).
  destruct (Ascii.eqb (digit n) pad); [discriminate|reflexivity].
Qed.

Lemma byte_below_256 (x : byte) : Byte.to_N x < 256.
Proof. pose proof (Byte.to_N_bounded x). lia. Qed.

(** The four groups of three bytes are six bits wide. *)
Lemma group0_bound X : X < 256 -> X / 4 < 64.
Proof. intros. div_lia. Qed.

Lemma group1_bound X Y : Y < 256 -> X mod 4 * 16 + Y / 16 < 64.
Proof. intros. div_lia. Qed.

Lemma group2_bound Y Z : Z < 256 -> Y mod 16 * 4 + Z / 64 < 64.
Proof. intros. div_lia. Qed.

Lemma group3_bound Z : Z mod 64 < 64.
Proof. div_lia. Qed.

(** Reassembling the bytes from the groups. *)
Lemma first_byte X Y : Y < 256 -> X / 4 * 4 + (X mod 4 * 16 + Y / 16) / 16 = X.
Proof. intros. div_lia. Qed.

Lemma second_byte X Y Z :
  Y < 256 -> Z < 256 ->
  (X mod 4 * 16 + Y / 16) mod 16 * 16 + (Y mod 16 * 4 + Z / 64) / 4 = Y.
Proof. intros. div_lia. Qed.

Lemma third_byte Y Z : Z < 256 -> (Y mod 16 * 4 + Z / 64) mod 4 * 64 + Z mod 64 = Z.
Proof. intros. div_lia. Qed.

Lemma bytes_of_to_N (xs : list byte) : bytes_of (List.map Byte.to_N xs) = Some xs.
Proof.
  induction xs as [|x xs IH]; [reflexivity|].
  simpl. rewrite Byte.of_to_N, IH. reflexivity.
Qed.

(** Induction over a buffer three bytes at a time. *)
Lemma buffer_ind3 (P : Buffer.t -> Prop) :
  P [] -> (forall x, P [x]) -> (forall x y, P [x; y]) ->
  (forall x y z rest, P rest -> P (x :: y :: z :: rest)) ->
  forall buf, P buf.
Proof.
  intros H0 H1 H2 H3 buf.
  assert (Hlen : forall n (b : Buffer.t), (length b <= n)%nat -> P b).
  { induction n as [|n IH]; intros b Hb.
    - destruct b; [exact H0|simpl in Hb; lia].
    - destruct b as [|x [|y [|z rest]]]; auto.
      apply H3, IH. simpl in Hb. lia. }
  apply (Hlen (length buf)). lia.
Qed.

Lemma base64_round_trip (buf : Buffer.t) :
  from_base64 (toString_base64 buf) = Some buf.
Proof.
  induction buf as [|x|x y|x y z rest IH] using buffer_ind3.
  - reflexivity.
  - cbn [toString_base64 from_base64].
    pose proof (byte_below_256 x) as Hx.
    rewrite (value_digit _ (group0_bound _ Hx)).
    rewrite (value_digit (Byte.to_N x mod 4 * 16)) by div_lia.
    rewrite Ascii.eqb_refl. cbn [is_empty andb].
    replace (Byte.to_N x / 4 * 4 + Byte.to_N x mod 4 * 16 / 16) with (Byte.to_N x)
      by div_lia.
    apply (bytes_of_to_N [x]).
  - cbn [toString_base64 from_base64].
    pose proof (byte_below_256 x) as Hx. pose proof (byte_below_256 y) as Hy.
    rewrite (value_digit _ (group0_bound _ Hx)).
    rewrite (value_digit _ (group1_bound (Byte.to_N x) _ Hy)).
    rewrite (digit_not_pad (Byte.to_N y mod 16 * 4)) by div_lia.
    rewrite (value_digit (Byte.to_N y mod 16 * 4)) by div_lia.
    rewrite Ascii.eqb_refl. cbn [is_empty].
    rewrite (first_byte _ _ Hy).
    replace ((Byte.to_N x mod 4 * 16 + Byte.to_N y / 16) mod 16 * 16
             + Byte.to_N y mod 16 * 4 / 4) with (Byte.to_N y) by div_lia.
    apply (bytes_of_to_N [x; y]).
  - cbn [toString_base64 from_base64].
    pose proof (byte_below_256 x) as Hx. pose proof (byte_below_256 y) as Hy.
    pose proof (byte_below_256 z) as Hz.
    rewrite (value_digit _ (group0_bound _ Hx)).
    rewrite (value_digit _ (group1_bound (Byte.to_N x) _ Hy)).
    rewrite (digit_not_pad _ (group2_bound (Byte.to_N y) _ Hz)).
    rewrite (value_digit _ (group2_bound (Byte.to_N y) _ Hz)).
    rewrite (digit_not_pad _ (group3_bound (Byte.to_N z))).
    rewrite (value_digit _ (group3_bound (Byte.to_N z))).
    rewrite IH.
    rewrite (first_byte _ _ Hy), (second_byte _ _ _ Hy Hz), (third_byte _ _ Hz).
    pose proof (bytes_of_to_N [x; y; z]) as Hb. cbn [List.map] in Hb.
    rewrite Hb. reflexivity.
Qed.

End Base64.

(** ** The debug-log writer *)

Section WriteLogs.

Context {V : Type} `{Json V}.
Variable nd : Node.
Variable name : string.
Variable value : V.

(** Case analysis on every answer of the environment that [writeLogs] reads. *)
Ltac split_answers :=
  repeat match goal with
         | |- context [match ?x with _ => _ end] =>
             lazymatch x with
             | context [match _ with _ => _ end] => fail
             | _ => destruct x eqn:?; simpl
             end
         end.

Lemma writeLogs_run (t : Trace) :
  exists evs,
    writeLogs nd name value t = (Return tt, t ++ evs) /\
    http_requests evs = [] /\
    (strict_neq (process_env_NODE_ENV nd t) "development" = true -> evs = []).
Proof.
  unfold writeLogs. unfold_M. simpl.
  split_answers.
  all: repeat match goal with u : unit |- _ => destruct u end.
  all: eexists; split;
    [ f_equal; first [symmetry; apply app_nil_r | rewrite <- !app_assoc; reflexivity] |].
  all: split; [reflexivity | intros; first [reflexivity | congruence]].
Qed.

End WriteLogs.

(** ** Fetching a file and a node subtree *)

Lemma starts_with_app (p s : string) : starts_with p (p +:+ s) = true.
Proof.
  induction p as [|c p IH]; [reflexivity|].
  simpl. rewrite Ascii.eqb_refl. exact IH.
Qed.

Section Fetch.

Context `{Host}.
Variable self : FigmaService.

(** The line [getFile] logs before it calls [request]. *)
Local Abbreviation announced fileKey depth t :=
  (t ++ [Console Log [Str ("Calling " +:+ baseUrl self +:+ getFile_endpoint fileKey depth)]]).

Ltac use_writeLogs :=
  match goal with
  | |- context [writeLogs ?n ?name ?v ?t] =>
      let evs := fresh "evs" in
      let Hrun := fresh "Hrun" in
      let Hreq := fresh "Hreq" in
      destruct (writeLogs_run n name v t) as (evs & Hrun & Hreq & _);
      rewrite Hrun; clear Hrun; simpl
  end.

Ltac close_run :=
  eexists; split;
  [ f_equal; first [symmetry; apply app_nil_r | rewrite <- !app_assoc; reflexivity]
  | rewrite ?http_requests_app; simpl;
    repeat match goal with Hreq : http_requests _ = [] |- _ => rewrite Hreq; clear Hreq end;
    reflexivity ].

Lemma getFile_run (fileKey : string) (depth : option float) (t : Trace) :
  exists evs,
    getFile self fileKey depth t =
      (match fst (request self (getFile_endpoint fileKey depth) (announced fileKey depth t)) with
       | Return raw => parseFigmaFileResponse raw
       | Throw e => Throw e
       end,
       after_call self (getFile_endpoint fileKey depth) (announced fileKey depth t) ++ evs) /\
    http_requests evs = [].
Proof.
  unfold getFile. unfold_M. simpl.
  pose proof (request_trace (T:=GetFileResponse) self (getFile_endpoint fileKey depth)
                (announced fileKey depth t)) as Ht.
  destruct (request (T:=GetFileResponse) self (getFile_endpoint fileKey depth)
              (announced fileKey depth t)) as [[raw|e] t2];
    simpl in Ht; subst t2; simpl.
  - destruct (parseFigmaFileResponse raw) as [design|e]; simpl.
    + do 2 use_writeLogs. close_run.
    + close_run.
  - close_run.
Qed.

Lemma getNode_run (fileKey nodeId : string) (depth : option float) (t : Trace) :
  exists evs,
    getNode self fileKey nodeId depth t =
      (match fst (request self (getNode_endpoint fileKey nodeId depth) t) with
       | Return raw => parseFigmaResponse raw
       | Throw e => Throw e
       end,
       after_call self (getNode_endpoint fileKey nodeId depth) t ++ evs) /\
    http_requests evs = [].
Proof.
  unfold getNode. unfold_M. simpl.
  pose proof (request_trace (T:=GetFileNodesResponse) self
                (getNode_endpoint fileKey nodeId depth) t) as Ht.
  destruct (request (T:=GetFileNodesResponse) self
              (getNode_endpoint fileKey nodeId depth) t) as [[raw|e] t2];
    simpl in Ht; subst t2; simpl.
  - use_writeLogs.
    destruct (parseFigmaResponse raw) as [design|e]; simpl.
    + use_writeLogs. close_run.
    + close_run.
  - close_run.
Qed.

Lemma fetchImageData_run (imageUrl : string) (t : Trace) :
  exists evs,
    fetchImageData self imageUrl t =
      (match axios_get imageUrl image_config t with
       | Return response =>
           Return (Buffer.toString_base64 (Buffer.from (AxiosResponse.data response)))
       | Throw e => Throw e
       end,
       (t ++ [HttpGet imageUrl image_config]) ++ evs) /\
    http_requests evs = [].
Proof.
  unfold fetchImageData. unfold_M. simpl.
  destruct (axios_get imageUrl image_config t) as [response|e]; simpl; close_run.
Qed.

Lemma getFile_http_requests (fileKey : string) (depth : option float) (t : Trace) :
  http_requests (snd (getFile self fileKey depth t)) =
  http_requests t ++ [(baseUrl self +:+ getFile_endpoint fileKey depth, request_config self)].
Proof.
  destruct (getFile_run fileKey depth t) as (evs & -> & Hevs). simpl.
  rewrite http_requests_app, Hevs, app_nil_r, http_requests_after_call.
  rewrite http_requests_app. simpl. rewrite app_nil_r. reflexivity.
Qed.

Lemma getNode_http_requests (fileKey nodeId : string) (depth : option float) (t : Trace) :
  http_requests (snd (getNode self fileKey nodeId depth t)) =
  http_requests t ++
  [(baseUrl self +:+ getNode_endpoint fileKey nodeId depth, request_config self)].
Proof.
  destruct (getNode_run fileKey nodeId depth t) as (evs & -> & Hevs). simpl.
  rewrite http_requests_app, Hevs, app_nil_r, http_requests_after_call.
  reflexivity.
Qed.

(** The outcome of a fetch does not depend on the trace the log writer
    leaves, nor on anything [process] or [fs] answer. *)
Lemma getFile_outcome (fileKey : string) (depth : option float) (t : Trace) :
  fst (getFile self fileKey depth t) =
  match fst (request self (getFile_endpoint fileKey depth) (announced fileKey depth t)) with
  | Return raw => parseFigmaFileResponse raw
  | Throw e => Throw e
  end.
Proof. destruct (getFile_run fileKey depth t) as (evs & -> & _). reflexivity. Qed.

Lemma getNode_outcome (fileKey nodeId : string) (depth : option float) (t : Trace) :
  fst (getNode self fileKey nodeId depth t) =
  match fst (request self (getNode_endpoint fileKey nodeId depth) t) with
  | Return raw => parseFigmaResponse raw
  | Throw e => Throw e
  end.
Proof. destruct (getNode_run fileKey nodeId depth t) as (evs & -> & _). reflexivity. Qed.

(** C6, as the code has it. The request of [getFile] goes to [/files/{id}]
    and that of [getNode] to [/files/{id}/nodes?ids={node}]; the depth
    parameter is appended exactly when a depth is supplied that is neither
    zero nor NaN, and nothing is appended otherwise. *)
Theorem depth_parameter_when_truthy (fileKey nodeId : string) (depth : option float)
    (t : Trace) :
  http_requests (snd (getFile self fileKey depth t)) =
    http_requests t ++
    [(baseUrl self +:+ "/files/" +:+ fileKey +:+
        match depth with
        | Some d => if is_zero d || is_nan d then ""
                    else "?depth=" +:+ Number_toString d
        | None => ""
        end,
      request_config self)] /\
  http_requests (snd (getNode self fileKey nodeId depth t)) =
    http_requests t ++
    [(baseUrl self +:+ "/files/" +:+ fileKey +:+ "/nodes?ids=" +:+ nodeId +:+
        match depth with
        | Some d => if is_zero d || is_nan d then ""
                    else "&depth=" +:+ Number_toString d
        | None => ""
        end,
      request_config self)].
Proof.
  rewrite getFile_http_requests, getNode_http_requests.
  unfold getFile_endpoint, getNode_endpoint, depth_query, truthy_number.
  destruct depth as [d|]; [destruct (is_zero d || is_nan d)|]; split; reflexivity.
Qed.

(** C10. [getNode] puts the node id into the [ids] parameter exactly as it was
    given, hyphens included. *)
Theorem getNode_sends_id_verbatim (fileKey nodeId : string) (depth : option float)
    (t : Trace) :
  http_requests (snd (getNode self fileKey nodeId depth t)) =
    http_requests t ++
    [(baseUrl self +:+ "/files/" +:+ fileKey +:+ "/nodes?ids=" +:+ nodeId +:+
        depth_query "&" depth,
      request_config self)].
Proof.
  apply getNode_http_requests.
Qed.

(** C8. [getFile] and [getNode] issue one request each (no retry). When the
    server answers, they return exactly what the transformer makes of the
    payload -- its value, or whatever it throws; when [request] throws, that
    same value reaches the caller. *)
Theorem fetch_pass_through (fileKey nodeId : string) (depth : option float) (t : Trace) :
  ((forall response,
       answer self (getFile_endpoint fileKey depth) (announced fileKey depth t) =
         Return response ->
       fst (getFile self fileKey depth t) =
         parseFigmaFileResponse (AxiosResponse.data response)) /\
   (forall e,
       fst (request (T:=GetFileResponse) self (getFile_endpoint fileKey depth)
              (announced fileKey depth t)) = Throw e ->
       fst (getFile self fileKey depth t) = Throw e) /\
   http_requests (snd (getFile self fileKey depth t)) =
     http_requests t ++
     [(baseUrl self +:+ getFile_endpoint fileKey depth, request_config self)]) /\
  ((forall response,
       answer self (getNode_endpoint fileKey nodeId depth) t = Return response ->
       fst (getNode self fileKey nodeId depth t) =
         parseFigmaResponse (AxiosResponse.data response)) /\
   (forall e,
       fst (request (T:=GetFileNodesResponse) self
              (getNode_endpoint fileKey nodeId depth) t) = Throw e ->
       fst (getNode self fileKey nodeId depth t) = Throw e) /\
   http_requests (snd (getNode self fileKey nodeId depth t)) =
     http_requests t ++
     [(baseUrl self +:+ getNode_endpoint fileKey nodeId depth, request_config self)]).
Proof.
  split; (split; [|split]).
  - intros response Ha. rewrite getFile_outcome, request_run, Ha. reflexivity.
  - intros e He. rewrite getFile_outcome, He. reflexivity.
  - apply getFile_http_requests.
  - intros response Ha. rewrite getNode_outcome, request_run, Ha. reflexivity.
  - intros e He. rewrite getNode_outcome, He. reflexivity.
  - apply getNode_http_requests.
Qed.

(** C9. When the download succeeds, [fetchImageData] returns the base64 text
    of the response body, and decoding that text gives the body back, byte
    for byte. *)
Theorem fetchImageData_base64_round_trip (imageUrl : string) (t : Trace)
    (response : AxiosResponse.t Buffer.t) :
  axios_get imageUrl image_config t = Return response ->
  exists text,
    fst (fetchImageData self imageUrl t) = Return text /\
    text = Buffer.toString_base64 (AxiosResponse.data response) /\
    Buffer.from_base64 text = Some (AxiosResponse.data response).
Proof.
  intros Ha. destruct (fetchImageData_run imageUrl t) as (evs & -> & _).
  rewrite Ha. simpl. eexists. split; [reflexivity|]. split; [reflexivity|].
  apply base64_round_trip.
Qed.

Lemma perform_wire (c : Call) (t : Trace) :
  exists r, http_requests (perform self c t) = http_requests t ++ [r] /\ wire_ok self c r.
Proof.
  destruct c as [fileKey depth|fileKey nodeId depth|fileKey nodeId|imageUrl]; simpl.
  - rewrite getFile_http_requests.
    eexists. split; [reflexivity|]. split; [apply starts_with_app|reflexivity].
  - rewrite getNode_http_requests.
    eexists. split; [reflexivity|]. split; [apply starts_with_app|reflexivity].
  - rewrite getNodeImage_http_requests.
    eexists. split; [reflexivity|]. split; [apply starts_with_app|reflexivity].
  - destruct (fetchImageData_run imageUrl t) as (evs & -> & Hevs). simpl.
    rewrite !http_requests_app, Hevs. simpl. rewrite app_nil_r.
    eexists. split; reflexivity.
Qed.

Lemma perform_all_wire (cs : list Call) (t : Trace) :
  exists reqs,
    http_requests (perform_all self cs t) = http_requests t ++ reqs /\
    Forall2 (wire_ok self) cs reqs.
Proof.
  revert t. induction cs as [|c cs IH]; intros t; simpl.
  - exists []. rewrite app_nil_r. split; [reflexivity|constructor].
  - destruct (perform_wire c t) as (r & Hr & Hok).
    destruct (IH (perform self c t)) as (reqs & Hreqs & Hall).
    exists (r :: reqs). rewrite Hreqs, Hr, <- app_assoc.
    split; [reflexivity|constructor; assumption].
Qed.

End Fetch.

(** ** The credential *)

(** C5, as the code has it. Over any sequence of calls on a client built with
    a key, every call issues one request; those of [getFile], [getNode] and
    [getNodeImage] go to the base URL with that key in the [X-Figma-Token]
    header, and that of [fetchImageData] goes to the given URL with the
    [arraybuffer] configuration, which has no header. *)
Theorem credential_on_api_requests `{Host} (key : string) (cs : list Call) (t : Trace) :
  apiKey (new_FigmaService key) = key /\
  exists reqs,
    http_requests (perform_all (new_FigmaService key) cs t) = http_requests t ++ reqs /\
    Forall2 (fun c r =>
               match c with
               | CallFetchImageData imageUrl =>
                   r = (imageUrl, image_config) /\
                   AxiosRequestConfig.headers (snd r) = []
               | _ =>
                   starts_with "https://api.figma.com/v1" (fst r) = true /\
                   header "X-Figma-Token" (AxiosRequestConfig.headers (snd r)) = Some key
               end) cs reqs.
Proof.
  split; [reflexivity|].
  destruct (perform_all_wire (new_FigmaService key) cs t) as (reqs & Hreqs & Hall).
  exists reqs. split; [exact Hreqs|].
  clear Hreqs. induction Hall as [|c r cs reqs Hok _ IH]; constructor; [|exact IH].
  destruct c; simpl in Hok; try exact Hok.
  subst r. split; reflexivity.
Qed.

(** ** Debug logging *)

(** C7. Outside development mode [writeLogs] leaves the trace as it was, so it
    makes no filesystem call; and in every case -- whatever [process] and
    [fs] answer or throw -- it returns normally.  Hence the outcome of
    [getFile] and of [getNode] is the same under any two runtimes. *)
Theorem writeLogs_never_raises {V : Type} `{Json V} (nd : Node) (name : string) (value : V)
    (t : Trace) :
  (process_env_NODE_ENV nd t <> Some "development" ->
   writeLogs nd name value t = (Return tt, t)) /\
  (exists evs, writeLogs nd name value t = (Return tt, t ++ evs)) /\
  (forall (h : Host) (n1 n2 : Node) self fileKey nodeId depth,
      fst (getFile (H:=with_node h n1) self fileKey depth t) =
      fst (getFile (H:=with_node h n2) self fileKey depth t) /\
      fst (getNode (H:=with_node h n1) self fileKey nodeId depth t) =
      fst (getNode (H:=with_node h n2) self fileKey nodeId depth t)).
Proof.
  destruct (writeLogs_run nd name value t) as (evs & Hrun & _ & Hoff).
  split; [|split].
  - intros Hflag. rewrite Hrun, Hoff, app_nil_r; [reflexivity|].
    destruct (process_env_NODE_ENV nd t) as [s|]; [|reflexivity].
    simpl. destruct (String.eqb_spec s "development"); [congruence|reflexivity].
  - exists evs. exact Hrun.
  - intros h n1 n2 self fileKey nodeId depth. split.
    + rewrite (getFile_outcome (H:=with_node h n1)), (getFile_outcome (H:=with_node h n2)).
      reflexivity.
    + rewrite (getNode_outcome (H:=with_node h n1)), (getNode_outcome (H:=with_node h n2)).
      reflexivity.
Qed.

(** ** Concrete runs *)

Example formatNodeId_keeps_later_hyphens : formatNodeId "1-2-3" = "1:2-3".
Proof. reflexivity. Qed.

Example base64_of_Man :
  Buffer.toString_base64 ["M"%byte; "a"%byte; "n"%byte] = "TWFu" /\
  Buffer.toString_base64 ["M"%byte; "a"%byte] = "TWE=" /\
  Buffer.toString_base64 ["M"%byte] = "TQ==" /\
  Buffer.toString_base64 [xff; xfe; x00; x01] = "//4AAQ==".
Proof. repeat split. Qed.

Example development_run_writes_both_files :
  List.filter is_fs_event
    (snd (getFile (H:=Scenario.development) Sample.client "abc" None [])) =
  [FsAccess "/srv/app"; FsExists "logs"; FsMkdir "logs";
   FsWrite "logs/figma-raw.json" (Some "{}");
   FsAccess "/srv/app"; FsExists "logs";
   FsWrite "logs/figma-simplified.json" (Some "file:{}")].
Proof. reflexivity. Qed.

Example property_reads :
  Get (H:=Sample.bare_engine) (JObject [("err", JText "a"); ("err", JText "b")]) "err" =
    Return (JText "b") /\
  Get (H:=Sample.bare_engine) (JObject []) "toString" = Return (JBuiltin "toString") /\
  Get (H:=Sample.bare_engine) (JObject []) "1:2" = Return JUndefined /\
  Get (H:=Sample.bare_engine) JNull "err" = Throw (TypeError (CannotRead JNull "err")).
Proof. repeat split. Qed.

Example error_texts :
  ToString (H:=Sample.plain) (JArray [JText "a"; JNull; JArray [JBool true; JText "b"]]) =
    Return "a,,true,b" /\
  ToString (H:=Sample.plain) (JObject [("code", JText "x")]) = Return "[object Object]" /\
  ToString (H:=Sample.plain) (JObject [("toString", JText "x")]) =
    Throw (TypeError CannotConvert).
Proof. repeat split. Qed.

Example rendered_image_is_returned :
  getNodeImage (H:=Sample.rendered) Sample.client "abc" "1-2" [] =
  (Return (JText "https://cdn.example/1-2.png"),
   [Console Log
      [Str "Calling https://api.figma.com/v1/images/abc?ids=1:2&scale=1&format=png"];
    HttpGet "https://api.figma.com/v1/images/abc?ids=1:2&scale=1&format=png"
      (request_config Sample.client)]).
Proof. reflexivity. Qed.

Example existing_logs_is_not_made_again :
  writeLogs (H:=fun v : string => Return (Some v)) Scenario.settled_node
    "figma-raw.json" "{}" [] =
  (Return tt,
   [FsAccess "/srv/app"; FsExists "logs"; FsWrite "logs/figma-raw.json" (Some "{}")]).
Proof. reflexivity. Qed.

Example readonly_run_still_returns :
  fst (getFile (H:=Sample.host Sample.readonly_node
                     (Sample.ok "{}") (Sample.ok Sample.no_images) (Sample.ok []))
         Sample.client "abc" None []) = Return "file:{}".
Proof. reflexivity. Qed.

(** The 404 of the specification's example. *)
Lemma request_error_translation_witness :
  fst (request (H:=Sample.bare_engine) (H0:=@axios_file Sample.not_found)
         Sample.client "/files/abc" []) =
  Throw (FigmaError 404 (JText "file not found")).
Proof.
  destruct (request_error_translation (H:=Sample.bare_engine)
              (H0:=@axios_file Sample.not_found) Sample.client "/files/abc" [])
    as [Hresp _].
  destruct (Hresp "Request failed"
              (AxiosResponse.Build 404 (Sample.err_body "file not found"))
              eq_refl ltac:(discriminate) ltac:(discriminate))
    as (err & message & _ & _ & Hrun & Hmsg & _).
  rewrite Hrun, (Hmsg _ "file not found" eq_refl eq_refl); [reflexivity|discriminate].
Defined.

(** An error response whose JSON body is [null]: reading [err] off it
    throws, so what reaches the caller is a [TypeError], not the structured
    error. *)
Lemma request_null_body_throws_TypeError :
  fst (request (H:=Sample.bare_engine) (H0:=@axios_file Scenario.null_body)
         Sample.client "/files/abc" []) =
    Throw (TypeError (CannotRead JNull "err")) /\
  is_FigmaError (TypeError (CannotRead JNull "err")) = false.
Proof. split; reflexivity. Qed.

Lemma getNodeImage_error_field_witness :
  fst (getNodeImage (H:=Sample.erring) Sample.client "abc" "1-2" []) =
  Throw (Error "Invalid node").
Proof.
  rewrite (getNodeImage_error_field (H:=Sample.erring) Sample.client "abc" "1-2" []
             (AxiosResponse.Build 200 (Sample.image_body (JText "Invalid node")))
             "Invalid node" eq_refl eq_refl ltac:(discriminate)).
  reflexivity.
Defined.

(** C4. A node id that names something every object inherits: the mapping
    does not hold it, and yet the lookup finds a value -- the function
    [Object] -- which the operation returns instead of throwing the
    not-found error.  With no mapping at all the lookup itself throws. *)
Theorem getNodeImage_inherited_name :
  own_property "constructor" [] = None /\
  fst (getNodeImage (H:=Sample.plain) Sample.client "abc" "constructor" []) =
    Return (JBuiltin "constructor") /\
  fst (getNodeImage (H:=Sample.plain) Sample.client "abc" "9:9" []) =
    Throw (Error "No image URL found for node 9:9") /\
  fst (getNodeImage (H:=Scenario.no_mapping) Sample.client "abc" "1:2" []) =
    Throw (TypeError (CannotRead JUndefined "1:2")).
Proof. repeat split. Qed.

Lemma fetchImageData_base64_round_trip_witness :
  exists text,
    fst (fetchImageData (H:=Sample.plain) Sample.client "https://cdn.example/1-2.png" []) =
      Return text /\
    text = Buffer.toString_base64 [x89; x50; x4e; x47] /\
    Buffer.from_base64 text = Some [x89; x50; x4e; x47].
Proof.
  exact (fetchImageData_base64_round_trip (H:=Sample.plain) Sample.client
           "https://cdn.example/1-2.png" [] (AxiosResponse.Build 200 [x89; x50; x4e; x47])
           eq_refl).
Defined.

(** A depth of zero is supplied, and the request carries no depth parameter,
    where the specification's wording would have [?depth=0]. *)
Lemma depth_zero_is_dropped :
  http_requests (snd (getFile (H:=Sample.plain) Sample.client "abc" (Some 0%float) [])) =
    [("https://api.figma.com/v1/files/abc", request_config Sample.client)] /\
  http_requests (snd (getNode (H:=Sample.plain) Sample.client "abc" "1:2" (Some 0%float) [])) =
    [("https://api.figma.com/v1/files/abc/nodes?ids=1:2", request_config Sample.client)] /\
  claimed_depth_query (H:=Sample.plain) "?" (Some 0%float) = "?depth=0".
Proof. repeat split. Qed.

(** The image download is an outbound request of the client, and it carries
    no credential header. *)
Lemma fetchImageData_sends_no_credential :
  http_requests
    (snd (fetchImageData (H:=Sample.plain) Sample.client "https://cdn.example/1-2.png" [])) =
    [("https://cdn.example/1-2.png", image_config)] /\
  header "X-Figma-Token" (AxiosRequestConfig.headers image_config) = None.
Proof. split; reflexivity. Qed.

(** * Further properties *)

(** ** The log writer, call by call *)

Lemma strict_neq_false (o : option string) (s : string) :
  strict_neq o s = false -> o = Some s.
Proof.
  destruct o as [x|]; simpl; [|discriminate].
  destruct (String.eqb_spec x s); [congruence|discriminate].
Qed.

Lemma strict_neq_development (o : option string) :
  o = Some "development" -> strict_neq o "development" = false.
Proof. intros ->. reflexivity. Qed.

Section LogWriter.

Context {V : Type} `{Json V}.
Variable nd : Node.
Variable name : string.
Variable value : V.

Ltac split_answers :=
  repeat match goal with
         | |- context [match ?x with _ => _ end] =>
             lazymatch x with
             | context [match _ with _ => _ end] => fail
             | _ => destruct x eqn:?; simpl
             end
         end.

Lemma writeLogs_shape (t : Trace) :
  exists evs,
    writeLogs nd name value t = (Return tt, t ++ evs) /\
    confined nd ["logs/" +:+ name] t evs /\
    (process_env_NODE_ENV nd t <> Some "development" -> evs = []).
Proof.
  unfold writeLogs. unfold_M. simpl.
  split_answers.
  all: repeat match goal with u : unit |- _ => destruct u end.
  all: eexists; split;
    [ f_equal; first [symmetry; apply app_nil_r | rewrite <- !app_assoc; reflexivity] |].
  all: split;
    [simpl; repeat split; first [assumption | reflexivity | left; reflexivity]|].
  all: intros Hflag; try reflexivity.
  all: exfalso; apply Hflag; apply strict_neq_false; assumption.
Qed.

(** X12. In development mode, when the working directory cannot be
    determined or is not writable, [writeLogs] reports on the console and
    stops: it neither looks for [logs], nor creates it, nor writes a file. *)
Theorem writeLogs_stops_when_not_writable (t : Trace) :
  process_env_NODE_ENV nd t = Some "development" ->
  (forall e, process_cwd nd t = Throw e ->
             writeLogs nd name value t = (Return tt, t ++ [log_failure Log e])) /\
  (forall cwd e,
      process_cwd nd t = Return cwd ->
      fs_accessSync nd cwd t = Throw e ->
      writeLogs nd name value t =
        (Return tt, t ++ [FsAccess cwd; log_failure Log e])).
Proof.
  intros Hdev. split.
  - intros e Hcwd. unfold writeLogs. unfold_M. simpl.
    rewrite (strict_neq_development _ Hdev), Hcwd. reflexivity.
  - intros cwd e Hcwd Hacc. unfold writeLogs. unfold_M. simpl.
    rewrite (strict_neq_development _ Hdev), Hcwd, Hacc. simpl.
    rewrite <- app_assoc. reflexivity.
Qed.

(** X13. In development mode with a writable working directory,
    [writeLogs] creates [logs] only when it is not there yet, and then
    writes the text [JSON.stringify] gave to [logs/name]; a failing write
    is reported on the console and goes no further. *)
Theorem writeLogs_writes_the_file (t : Trace) (cwd : string) (text : option string) :
  process_env_NODE_ENV nd t = Some "development" ->
  process_cwd nd t = Return cwd ->
  fs_accessSync nd cwd t = Return tt ->
  (fs_existsSync nd "logs" (t ++ [FsAccess cwd]) = false ->
   fs_mkdirSync nd "logs" (t ++ [FsAccess cwd; FsExists "logs"]) = Return tt) ->
  JSON_stringify value = Return text ->
  let present := fs_existsSync nd "logs" (t ++ [FsAccess cwd]) in
  let ready :=
    t ++ [FsAccess cwd; FsExists "logs"] ++ (if present then [] else [FsMkdir "logs"]) in
  writeLogs nd name value t =
    (Return tt,
     ready ++ [FsWrite ("logs/" +:+ name) text] ++
       match fs_writeFileSync nd ("logs/" +:+ name) text ready with
       | Return _ => []
       | Throw e => [log_failure Debug e]
       end).
Proof.
  intros Hdev Hcwd Hacc Hmk Htext present ready. subst present ready.
  unfold writeLogs. unfold_M. simpl.
  rewrite (strict_neq_development _ Hdev), Hcwd, Hacc. simpl.
  destruct (fs_existsSync nd "logs" (t ++ [FsAccess cwd])); simpl.
  - rewrite Htext. simpl. rewrite <- !app_assoc. simpl.
    destruct (fs_writeFileSync nd _ text _) as [[]|e]; simpl;
      rewrite <- ?app_assoc; reflexivity.
  - rewrite <- !app_assoc. simpl. rewrite (Hmk eq_refl), Htext. simpl.
    rewrite <- !app_assoc. simpl.
    destruct (fs_writeFileSync nd _ text _) as [[]|e]; simpl;
      rewrite <- ?app_assoc; reflexivity.
Qed.

(** X14. In development mode, when [logs] is missing and cannot be created,
    or when the value cannot be turned into JSON -- whether [logs] was
    there or has just been created -- no file is written: the failure is
    reported with [console.debug] and [writeLogs] returns. *)
Theorem writeLogs_writes_nothing_on_failure (t : Trace) (cwd : string) :
  process_env_NODE_ENV nd t = Some "development" ->
  process_cwd nd t = Return cwd ->
  fs_accessSync nd cwd t = Return tt ->
  (forall e,
      fs_existsSync nd "logs" (t ++ [FsAccess cwd]) = false ->
      fs_mkdirSync nd "logs" (t ++ [FsAccess cwd; FsExists "logs"]) = Throw e ->
      writeLogs nd name value t =
        (Return tt,
         t ++ [FsAccess cwd; FsExists "logs"; FsMkdir "logs"; log_failure Debug e])) /\
  (forall e,
      JSON_stringify value = Throw e ->
      (fs_existsSync nd "logs" (t ++ [FsAccess cwd]) = false ->
       fs_mkdirSync nd "logs" (t ++ [FsAccess cwd; FsExists "logs"]) = Return tt) ->
      writeLogs nd name value t =
        (Return tt,
         t ++ [FsAccess cwd; FsExists "logs"] ++
           (if fs_existsSync nd "logs" (t ++ [FsAccess cwd]) then [] else [FsMkdir "logs"]) ++
           [log_failure Debug e])).
Proof.
  intros Hdev Hcwd Hacc. split.
  - intros e Hex Hmk. unfold writeLogs. unfold_M. simpl.
    rewrite (strict_neq_development _ Hdev), Hcwd, Hacc. simpl. rewrite Hex. simpl.
    rewrite <- !app_assoc. simpl. rewrite Hmk. simpl.
    rewrite <- !app_assoc. reflexivity.
  - intros e Htext Hmk. unfold writeLogs. unfold_M. simpl.
    rewrite (strict_neq_development _ Hdev), Hcwd, Hacc. simpl.
    destruct (fs_existsSync nd "logs" (t ++ [FsAccess cwd])); simpl.
    + rewrite Htext. rewrite <- !app_assoc. reflexivity.
    + rewrite <- !app_assoc. simpl. rewrite (Hmk eq_refl), Htext. simpl.
      rewrite <- !app_assoc. reflexivity.
Qed.

End LogWriter.

(** ** What the operations throw and what they log *)

Section Throws.

Context `{Engine} {T : Type} `{Axios T}.
Variable self : FigmaService.
Variable endpoint : string.

(** X1. Whatever [axios.get] throws, what [request] throws is the structured
    error, or the generic [Error] with its fixed message, or -- only when the
    server answered with a body that is [null] or [undefined] -- the
    [TypeError] of reading [err] off that body.  No [AxiosError], and no
    other error of the transport, reaches the caller. *)
Theorem request_hides_transport_errors (t : Trace) (e : JsValue) :
  fst (request self endpoint t) = Throw e ->
  (exists status message, e = FigmaError status message) \/
  e = Error "Failed to make request to Figma API" \/
  (exists m response,
      answer self endpoint t = Throw (AxiosError m (Some response)) /\
      (AxiosResponse.data response = JNull \/ AxiosResponse.data response = JUndefined) /\
      e = TypeError (CannotRead (AxiosResponse.data response) "err")).
Proof.
  rewrite request_run.
  destruct (answer self endpoint t) as [response|[m [r|]|m|f|s m]] eqn:Ha;
    try (simpl; intros He; try discriminate; injection He as <-; eauto; fail).
  rewrite request_catch_response.
  destruct (AxiosResponse.data r) eqn:Hbody; simpl; intros He; injection He as <-;
    try (left; eauto; fail);
    right; right; exists m, r; rewrite Hbody; auto.
Qed.

End Throws.

Section Images.

Context `{Host}.
Variable self : FigmaService.

(** X2. When the download fails, [fetchImageData] reports it once on the
    console and throws the very value [axios.get] threw -- unlike [request],
    it translates nothing. *)
Theorem fetchImageData_rethrows (imageUrl : string) (t : Trace) (e : JsValue) :
  axios_get (T:=Buffer.t) imageUrl image_config t = Throw e ->
  fetchImageData self imageUrl t =
    (Throw e, t ++ [HttpGet imageUrl image_config; download_failure e]).
Proof.
  intros Ha. unfold fetchImageData. unfold_M. simpl. rewrite Ha. simpl.
  rewrite <- app_assoc. reflexivity.
Qed.

(** X3. An [err] that is falsy -- the empty text, [null], zero, [false], or
    no [err] at all -- counts as no error: the outcome is decided by the
    lookup of the normalized id in [images] alone.  When [images] is an
    object, a truthy value it has of its own under that id is returned and
    a falsy one gives the not-found error; an id it does not have gives the
    not-found error too, unless the id names something every object
    inherits, which is then returned. *)
Theorem getNodeImage_empty_err_ignored (fileKey nodeId : string) (t : Trace)
    (response : AxiosResponse.t Any) (err : Any) :
  answer self (getNodeImage_endpoint fileKey nodeId) t = Return response ->
  Get (AxiosResponse.data response) "err" = Return err ->
  ToBoolean err = false ->
  fst (getNodeImage self fileKey nodeId t) =
    match Get (AxiosResponse.data response) "images" with
    | Throw e => Throw e
    | Return images =>
        match Get images (formatNodeId nodeId) with
        | Throw e => Throw e
        | Return imageUrl =>
            if ToBoolean imageUrl then Return imageUrl
            else Throw (Error ("No image URL found for node " +:+ formatNodeId nodeId))
        end
    end /\
  (forall props mapping,
      AxiosResponse.data response = JObject props ->
      own_property "images" props = Some (JObject mapping) ->
      fst (getNodeImage self fileKey nodeId t) =
        match own_property (formatNodeId nodeId) mapping with
        | Some imageUrl =>
            if ToBoolean imageUrl then Return imageUrl
            else Throw (Error ("No image URL found for node " +:+ formatNodeId nodeId))
        | None =>
            if inherited (formatNodeId nodeId)
            then Return (JBuiltin (formatNodeId nodeId))
            else Throw (Error ("No image URL found for node " +:+ formatNodeId nodeId))
        end).
Proof.
  intros Ha Herr Hfalsy.
  assert (Hrun : fst (getNodeImage self fileKey nodeId t) =
    match Get (AxiosResponse.data response) "images" with
    | Throw e => Throw e
    | Return images =>
        match Get images (formatNodeId nodeId) with
        | Throw e => Throw e
        | Return imageUrl =>
            if ToBoolean imageUrl then Return imageUrl
            else Throw (Error ("No image URL found for node " +:+ formatNodeId nodeId))
        end
    end).
  { unfold getNodeImage. unfold_M.
    rewrite request_run, Ha. cbn -[Get]. rewrite Herr. cbn -[Get]. rewrite Hfalsy.
    cbn -[Get].
    destruct (Get (AxiosResponse.data response) "images") as [images|e]; cbn -[Get];
      [|reflexivity].
    destruct (Get images (formatNodeId nodeId)) as [imageUrl|e]; cbn -[Get];
      [|reflexivity].
    destruct (ToBoolean imageUrl); reflexivity. }
  split; [exact Hrun|].
  intros props mapping Hbody Hown. rewrite Hrun, Hbody. simpl. rewrite Hown. simpl.
  destruct (own_property (formatNodeId nodeId) mapping) as [imageUrl|];
    [reflexivity|].
  destruct (inherited (formatNodeId nodeId)); reflexivity.
Qed.

(** X4. [getNodeImage] reports every failure exactly once, with the value it
    throws and the node id as the caller gave it; a success leaves nothing
    on the console beyond the line of [request]. *)
Theorem getNodeImage_logs_what_it_throws (fileKey nodeId : string) (t : Trace) :
  match fst (getNodeImage self fileKey nodeId t) with
  | Return _ =>
      snd (getNodeImage self fileKey nodeId t) =
        after_call self (getNodeImage_endpoint fileKey nodeId) t
  | Throw e =>
      snd (getNodeImage self fileKey nodeId t) =
        after_call self (getNodeImage_endpoint fileKey nodeId) t ++
        [image_failure fileKey nodeId e]
  end.
Proof. apply getNodeImage_trace. Qed.

(** X5. Neither image operation ever calls the filesystem, in any mode. *)
Theorem image_operations_never_touch_the_disk (fileKey nodeId imageUrl : string)
    (t : Trace) :
  fs_calls (snd (getNodeImage self fileKey nodeId t)) = fs_calls t /\
  fs_calls (snd (fetchImageData self imageUrl t)) = fs_calls t.
Proof.
  split.
  - pose proof (getNodeImage_trace self fileKey nodeId t) as Hlog.
    destruct (fst (getNodeImage self fileKey nodeId t)); rewrite Hlog;
      unfold fs_calls, after_call, at_call; rewrite !List.filter_app; simpl;
      rewrite ?app_nil_r; reflexivity.
  - unfold fetchImageData. unfold_M. simpl.
    destruct (axios_get imageUrl image_config t); simpl;
      unfold fs_calls; rewrite !List.filter_app; simpl; rewrite ?app_nil_r; reflexivity.
Qed.

End Images.

(** ** Logging in the two fetch operations *)

Lemma confined_app (nd : Node) (files : list string) (t : Trace) (a b : list Event) :
  confined nd files t a -> confined nd files (t ++ a) b -> confined nd files t (a ++ b).
Proof.
  revert t. induction a as [|ev a IH]; intros t Ha Hb; simpl in *.
  - rewrite app_nil_r in Hb. exact Hb.
  - destruct Ha as [Hev Ha]. split; [exact Hev|].
    apply IH; [exact Ha|]. rewrite <- app_assoc. exact Hb.
Qed.

Lemma confined_more_files (nd : Node) (files files' : list string) (t : Trace)
    (evs : list Event) :
  (forall p, In p files -> In p files') ->
  confined nd files t evs -> confined nd files' t evs.
Proof.
  intros Hsub. revert t. induction evs as [|ev evs IH]; intros t; simpl; [tauto|].
  intros [Hev Hrest]. split; [|apply IH, Hrest].
  destruct ev; simpl in *; auto.
Qed.

Lemma confined_dump (nd : Node) (name : string) (t : Trace) (evs : list Event) :
  name = "figma-raw.json" \/ name = "figma-simplified.json" ->
  confined nd ["logs/" +:+ name] t evs -> confined nd dump_files t evs.
Proof.
  intros Hname. apply confined_more_files.
  intros p [<-|[]]. destruct Hname as [-> | ->]; simpl; auto.
Qed.

Lemma fs_calls_app (t1 t2 : Trace) : fs_calls (t1 ++ t2) = fs_calls t1 ++ fs_calls t2.
Proof. apply List.filter_app. Qed.

Section FetchLogging.

Context `{Host}.
Variable self : FigmaService.

Local Abbreviation announced fileKey depth t :=
  (t ++ [Console Log [Str ("Calling " +:+ baseUrl self +:+ getFile_endpoint fileKey depth)]]).

Ltac use_shape :=
  match goal with
  | |- context [writeLogs ?n ?name ?v ?t] =>
      let evs := fresh "evs" in
      let Hrun := fresh "Hrun" in
      let Hok := fresh "Hok" in
      let Hoff := fresh "Hoff" in
      destruct (writeLogs_shape n name v t) as (evs & Hrun & Hok & Hoff);
      rewrite Hrun; clear Hrun; simpl;
      apply confined_dump in Hok; [|auto]
  end.

(** Closes a goal [confined] on a list that ends with the events of log
    writers, each of them known to be confined. *)
Ltac confine :=
  simpl; repeat split;
  repeat match goal with
         | |- confined _ _ _ (_ ++ _) => apply confined_app
         | |- confined _ _ _ _ =>
             first [assumption | rewrite <- ?app_assoc in *; assumption | exact I]
         end.

(** What [getFile] adds to the trace: only console lines, its request and
    the calls of the log writer; after a throw, no filesystem call at all,
    and the two lines of its [catch] clause last. *)
Lemma getFile_shape (fileKey : string) (depth : option float) (t : Trace) :
  exists evs,
    snd (getFile self fileKey depth t) = t ++ evs /\
    confined node dump_files t evs /\
    ((forall t', process_env_NODE_ENV node t' <> Some "development") -> fs_calls evs = []) /\
    (forall e, fst (getFile self fileKey depth t) = Throw e ->
               fs_calls evs = [] /\ exists pre, evs = pre ++ file_failure e).
Proof.
  unfold getFile. unfold_M. simpl.
  pose proof (request_trace (T:=GetFileResponse) self (getFile_endpoint fileKey depth)
                (announced fileKey depth t)) as Ht.
  destruct (request (T:=GetFileResponse) self (getFile_endpoint fileKey depth)
              (announced fileKey depth t)) as [[raw|e] t2];
    simpl in Ht; subst t2; simpl.
  - destruct (parseFigmaFileResponse raw) as [design|e]; simpl.
    + do 2 use_shape. unfold after_call, at_call in *.
      eexists. split; [rewrite <- !app_assoc; reflexivity|].
      split; [confine|].
      split; [|discriminate].
      intros Hprod. rewrite (Hoff (Hprod _)), (Hoff0 (Hprod _)). reflexivity.
    + eexists. split; [unfold after_call, at_call; rewrite <- !app_assoc; reflexivity|].
      split; [confine|]. split; [reflexivity|].
      intros e' He'. injection He' as <-. split; [reflexivity|].
      eexists [_; _; _; _]. reflexivity.
  - eexists. split; [unfold after_call, at_call; rewrite <- !app_assoc; reflexivity|].
    split; [confine|]. split; [reflexivity|].
    intros e' He'. injection He' as <-. split; [reflexivity|].
    eexists [_; _; _]. reflexivity.
Qed.

Lemma getNode_shape (fileKey nodeId : string) (depth : option float) (t : Trace) :
  exists evs,
    snd (getNode self fileKey nodeId depth t) = t ++ evs /\
    confined node dump_files t evs /\
    ((forall t', process_env_NODE_ENV node t' <> Some "development") -> fs_calls evs = []).
Proof.
  unfold getNode. unfold_M. simpl.
  pose proof (request_trace (T:=GetFileNodesResponse) self
                (getNode_endpoint fileKey nodeId depth) t) as Ht.
  destruct (request (T:=GetFileNodesResponse) self
              (getNode_endpoint fileKey nodeId depth) t) as [[raw|e] t2];
    simpl in Ht; subst t2; simpl.
  - use_shape. destruct (parseFigmaResponse raw) as [design|e]; simpl.
    + use_shape. unfold after_call, at_call in *.
      eexists. split; [rewrite <- !app_assoc; reflexivity|].
      split; [confine|].
      intros Hprod. rewrite (Hoff (Hprod _)), (Hoff0 (Hprod _)). reflexivity.
    + unfold after_call, at_call in *.
      eexists. split; [rewrite <- !app_assoc; reflexivity|].
      split; [confine|].
      intros Hprod. rewrite (Hoff (Hprod _)). reflexivity.
  - eexists. split; [unfold after_call, at_call; rewrite <- !app_assoc; reflexivity|].
    split; [confine|reflexivity].
Qed.

Lemma image_shape (fileKey nodeId imageUrl : string) (t : Trace) :
  (exists evs,
      snd (getNodeImage self fileKey nodeId t) = t ++ evs /\
      confined node dump_files t evs /\ fs_calls evs = []) /\
  (exists evs,
      snd (fetchImageData self imageUrl t) = t ++ evs /\
      confined node dump_files t evs /\ fs_calls evs = []).
Proof.
  split.
  - pose proof (getNodeImage_trace self fileKey nodeId t) as Hlog.
    destruct (fst (getNodeImage self fileKey nodeId t)); rewrite Hlog;
      unfold after_call, at_call; rewrite <- !app_assoc;
      eexists; (split; [reflexivity|]); (split; [confine|reflexivity]).
  - unfold fetchImageData. unfold_M. simpl.
    destruct (axios_get imageUrl image_config t); simpl; rewrite <- ?app_assoc;
      eexists; (split; [reflexivity|]); (split; [confine|reflexivity]).
Qed.

End FetchLogging.

Section FetchFailures.

Context `{Host}.
Variable self : FigmaService.

(** X6. Whenever [getFile] throws, it has written no log: no filesystem call
    was made, and the last two console lines are those of its [catch]
    clause, carrying the thrown value. *)
Theorem getFile_failure_is_logged_not_written (fileKey : string) (depth : option float)
    (t : Trace) (e : JsValue) :
  fst (getFile self fileKey depth t) = Throw e ->
  fs_calls (snd (getFile self fileKey depth t)) = fs_calls t /\
  exists pre, snd (getFile self fileKey depth t) = t ++ pre ++ file_failure e.
Proof.
  intros He.
  destruct (getFile_shape self fileKey depth t) as (evs & Hsnd & _ & _ & Hthrow).
  destruct (Hthrow e He) as (Hfs & pre & ->).
  rewrite Hsnd, fs_calls_app, Hfs, app_nil_r. eauto.
Qed.

(** X7. [getNode] hands the raw payload to the log writer before it
    transforms it: when the transformer throws, the raw dump has already
    been attempted, nothing else is logged, and the transformer's value is
    thrown. *)
Theorem getNode_dumps_raw_before_transform (fileKey nodeId : string)
    (depth : option float) (t : Trace)
    (response : AxiosResponse.t GetFileNodesResponse) (e : JsValue) :
  answer self (getNode_endpoint fileKey nodeId depth) t = Return response ->
  parseFigmaResponse (AxiosResponse.data response) = Throw e ->
  getNode self fileKey nodeId depth t =
    (Throw e,
     snd (writeLogs node "figma-raw.json" (AxiosResponse.data response)
            (after_call self (getNode_endpoint fileKey nodeId depth) t))).
Proof.
  intros Ha Hparse. unfold getNode. unfold_M. simpl.
  rewrite request_run, Ha. simpl.
  destruct (writeLogs_shape node "figma-raw.json" (AxiosResponse.data response)
              (after_call self (getNode_endpoint fileKey nodeId depth) t))
    as (evs & -> & _).
  simpl. rewrite Hparse. reflexivity.
Qed.

Lemma perform_shape (c : Call) (t : Trace) :
  exists evs,
    perform self c t = t ++ evs /\
    confined node dump_files t evs /\
    ((forall t', process_env_NODE_ENV node t' <> Some "development") -> fs_calls evs = []).
Proof.
  destruct c as [fileKey depth|fileKey nodeId depth|fileKey nodeId|imageUrl]; simpl.
  - destruct (getFile_shape self fileKey depth t) as (evs & Hsnd & Hok & Hoff & _).
    exists evs. auto.
  - apply getNode_shape.
  - destruct (image_shape self fileKey nodeId "" t) as [(evs & Hsnd & Hok & Hfs) _].
    exists evs. auto.
  - destruct (image_shape self "" "" imageUrl t) as [_ (evs & Hsnd & Hok & Hfs)].
    exists evs. auto.
Qed.

Lemma perform_all_shape (cs : list Call) (t : Trace) :
  exists evs,
    perform_all self cs t = t ++ evs /\
    confined node dump_files t evs /\
    ((forall t', process_env_NODE_ENV node t' <> Some "development") -> fs_calls evs = []).
Proof.
  revert t. induction cs as [|c cs IH]; intros t; simpl.
  - exists []. rewrite app_nil_r. simpl. auto.
  - destruct (perform_shape c t) as (evs1 & -> & Hok1 & Hoff1).
    destruct (IH (t ++ evs1)) as (evs2 & -> & Hok2 & Hoff2).
    exists (evs1 ++ evs2). rewrite <- app_assoc. split; [reflexivity|].
    split; [apply confined_app; assumption|].
    intros Hprod. rewrite fs_calls_app, (Hoff1 Hprod), (Hoff2 Hprod). reflexivity.
Qed.

(** X8. When the process never runs in development mode, no sequence of
    calls on the client makes a filesystem call. *)
Theorem production_never_touches_the_disk (cs : list Call) (t : Trace) :
  (forall t', process_env_NODE_ENV node t' <> Some "development") ->
  fs_calls (perform_all self cs t) = fs_calls t.
Proof.
  intros Hprod. destruct (perform_all_shape cs t) as (evs & -> & _ & Hoff).
  rewrite fs_calls_app, (Hoff Hprod), app_nil_r. reflexivity.
Qed.

(** X9. In any mode and over any sequence of calls, every filesystem call
    the client makes is confined: an access check only of the directory
    [process.cwd()] names at that moment, an existence test or a creation
    only of [logs], and a write only to [logs/figma-raw.json] or
    [logs/figma-simplified.json]. *)
Theorem writes_stay_in_logs (cs : list Call) (t : Trace) :
  exists evs, perform_all self cs t = t ++ evs /\ confined node dump_files t evs.
Proof.
  destruct (perform_all_shape cs t) as (evs & Hrun & Hok & _). eauto.
Qed.

End FetchFailures.

(** ** The text of an image *)

Section ImageText.

Import Buffer.

Lemma toString_base64_length (buf : Buffer.t) :
  String.length (toString_base64 buf) = 4 * ((length buf + 2) / 3).
Proof.
  induction buf as [|x|x y|x y z rest IH] using buffer_ind3; try reflexivity.
  cbn [toString_base64 String.length length]. rewrite IH.
  replace (S (S (S (length rest))) + 2) with (length rest + 2 + 1 * 3) by lia.
  rewrite Nat.div_add by lia. lia.
Qed.

Context `{Host}.
Variable self : FigmaService.

(** X10. The text [fetchImageData] returns for a body of [n] bytes is
    [4 * ceil(n / 3)] characters long. *)
Theorem fetchImageData_text_length (imageUrl : string) (t : Trace)
    (response : AxiosResponse.t Buffer.t) :
  axios_get imageUrl image_config t = Return response ->
  exists text,
    fst (fetchImageData self imageUrl t) = Return text /\
    String.length text = 4 * ((length (AxiosResponse.data response) + 2) / 3).
Proof.
  intros Ha. destruct (fetchImageData_run self imageUrl t) as (evs & -> & _).
  rewrite Ha. simpl. eexists. split; [reflexivity|]. apply toString_base64_length.
Qed.

End ImageText.

(** ** The dumps of a development run *)


Section Dumps.

Context `{Host}.
Variable self : FigmaService.
Variable cwd : string.

Hypothesis development : forall t, process_env_NODE_ENV node t = Some "development".
Hypothesis cwd_known : forall t, process_cwd node t = Return cwd.
Hypothesis cwd_writable : forall t, fs_accessSync node cwd t = Return tt.
Hypothesis mkdir_when_absent :
  forall t, fs_existsSync node "logs" t = false ->
            fs_mkdirSync node "logs" (t ++ [FsExists "logs"]) = Return tt.
Hypothesis write_when_present :
  forall path content t,
    In path dump_files -> fs_existsSync node "logs" t = true ->
    fs_writeFileSync node path content (t ++ [FsExists "logs"]) = Return tt.
Hypothesis write_when_created :
  forall path content t,
    In path dump_files ->
    fs_writeFileSync node path content (t ++ [FsMkdir "logs"]) = Return tt.




End Dumps.

(** ** Concrete runs of the further properties *)

Lemma writeLogs_stops_when_not_writable_witness :
  writeLogs (H:=fun v : string => Return (Some v)) Sample.readonly_node
    "figma-raw.json" "{}" [] =
  (Return tt,
   [FsAccess "/srv/app";
    log_failure Log (Error "EACCES: permission denied, access '/srv/app'")]).
Proof.
  destruct (writeLogs_stops_when_not_writable (H:=fun v : string => Return (Some v))
              Sample.readonly_node "figma-raw.json" "{}" [] eq_refl) as [_ Hacc].
  exact (Hacc "/srv/app" _ eq_refl eq_refl).
Defined.

Lemma writeLogs_writes_the_file_witness :
  writeLogs (H:=fun v : string => Return (Some v))
    (Sample.writable_node (Some "development")) "figma-raw.json" "{}" [] =
  (Return tt,
   [FsAccess "/srv/app"; FsExists "logs"; FsMkdir "logs";
    FsWrite "logs/figma-raw.json" (Some "{}")]).
Proof.
  exact (writeLogs_writes_the_file (H:=fun v : string => Return (Some v))
           (Sample.writable_node (Some "development")) "figma-raw.json" "{}" []
           "/srv/app" (Some "{}") eq_refl eq_refl eq_refl (fun _ => eq_refl) eq_refl).
Defined.

(** [logs] cannot be made on a full disk; on a fresh disk it is made, and
    then the value turns out to be cyclic. *)
Lemma writeLogs_writes_nothing_on_failure_witness :
  writeLogs (H:=fun v : string => Return (Some v)) Scenario.full_disk_node
    "figma-raw.json" "{}" [] =
    (Return tt,
     [FsAccess "/srv/app"; FsExists "logs"; FsMkdir "logs";
      log_failure Debug (Error "ENOSPC: no space left on device, mkdir 'logs'")]) /\
  writeLogs (H:=fun _ : string => Throw (Error "Converting circular structure to JSON"))
    Scenario.fresh_disk "figma-raw.json" "{}" [] =
    (Return tt,
     [FsAccess "/srv/app"; FsExists "logs"; FsMkdir "logs";
      log_failure Debug (Error "Converting circular structure to JSON")]).
Proof.
  split.
  - destruct (writeLogs_writes_nothing_on_failure (H:=fun v : string => Return (Some v))
                Scenario.full_disk_node "figma-raw.json" "{}" [] "/srv/app"
                eq_refl eq_refl eq_refl) as [Hmk _].
    exact (Hmk _ eq_refl eq_refl).
  - destruct (writeLogs_writes_nothing_on_failure
                (H:=fun _ : string => Throw (Error "Converting circular structure to JSON"))
                Scenario.fresh_disk "figma-raw.json" "{}" [] "/srv/app"
                eq_refl eq_refl eq_refl) as [_ Hjson].
    exact (Hjson _ eq_refl (fun _ => eq_refl)).
Defined.

Lemma request_hides_transport_errors_witness :
  fst (request (H:=Sample.bare_engine) (H0:=@axios_file Scenario.invalid_url)
         Sample.client "/files/abc" []) =
    Throw (Error "Failed to make request to Figma API") /\
  ((exists status message,
       Error "Failed to make request to Figma API" = FigmaError status message) \/
   Error "Failed to make request to Figma API" =
     Error "Failed to make request to Figma API" \/
   (exists m response,
       answer (H:=@axios_file Scenario.invalid_url) Sample.client "/files/abc" [] =
         Throw (AxiosError m (Some response)) /\
       (AxiosResponse.data response = JNull \/ AxiosResponse.data response = JUndefined) /\
       Error "Failed to make request to Figma API" =
         TypeError (CannotRead (AxiosResponse.data response) "err"))).
Proof.
  split; [reflexivity|].
  exact (request_hides_transport_errors (H:=Sample.bare_engine)
           (H0:=@axios_file Scenario.invalid_url) Sample.client "/files/abc" [] _ eq_refl).
Defined.

Lemma fetchImageData_rethrows_witness :
  fetchImageData (H:=Sample.not_found) Sample.client "https://cdn.example/1-2.png" [] =
  (Throw (AxiosError "Network Error" None),
   [HttpGet "https://cdn.example/1-2.png" image_config;
    download_failure (AxiosError "Network Error" None)]).
Proof.
  exact (fetchImageData_rethrows (H:=Sample.not_found) Sample.client
           "https://cdn.example/1-2.png" [] _ eq_refl).
Defined.

Lemma getNodeImage_empty_err_ignored_witness :
  fst (getNodeImage (H:=Scenario.empty_err) Sample.client "abc" "1-2" []) =
  Return (JText "https://cdn.example/1-2.png").
Proof.
  destruct (getNodeImage_empty_err_ignored (H:=Scenario.empty_err) Sample.client
              "abc" "1-2" []
              (AxiosResponse.Build 200 (Sample.image_body (JText ""))) (JText "")
              eq_refl eq_refl eq_refl) as [Hrun _].
  rewrite Hrun. reflexivity.
Defined.

Lemma getFile_failure_is_logged_not_written_witness :
  fs_calls (snd (getFile (H:=Sample.not_found) Sample.client "abc" None [])) = fs_calls [] /\
  exists pre,
    snd (getFile (H:=Sample.not_found) Sample.client "abc" None []) =
      [] ++ pre ++ file_failure (FigmaError 404 (JText "file not found")).
Proof.
  exact (getFile_failure_is_logged_not_written (H:=Sample.not_found) Sample.client
           "abc" None [] (FigmaError 404 (JText "file not found")) eq_refl).
Defined.

Lemma getNode_dumps_raw_before_transform_witness :
  written
    (snd (getNode (H:=Scenario.broken_transformer (Sample.writable_node (Some "development")))
            Sample.client "abc" "1:2" None [])) =
  [("logs/figma-raw.json", Some "{}")].
Proof.
  rewrite (getNode_dumps_raw_before_transform
             (H:=Scenario.broken_transformer (Sample.writable_node (Some "development")))
             Sample.client "abc" "1:2" None [] (AxiosResponse.Build 200 "{}") _
             eq_refl eq_refl).
  reflexivity.
Defined.

Lemma production_never_touches_the_disk_witness :
  fs_calls
    (perform_all (H:=Sample.plain) Sample.client
       [CallGetFile "abc" None; CallGetNode "abc" "1:2" None;
        CallGetNodeImage "abc" "1-2"; CallFetchImageData "https://cdn.example/1-2.png"]
       []) = fs_calls [].
Proof.
  apply (production_never_touches_the_disk (H:=Sample.plain)).
  intros t'. discriminate.
Defined.

Lemma fetchImageData_text_length_witness :
  exists text,
    fst (fetchImageData (H:=Sample.plain) Sample.client "https://cdn.example/1-2.png" []) =
      Return text /\
    String.length text = 4 * ((length [x89; x50; x4e; x47] + 2) / 3).
Proof.
  exact (fetchImageData_text_length (H:=Sample.plain) Sample.client
           "https://cdn.example/1-2.png" [] (AxiosResponse.Build 200 [x89; x50; x4e; x47])
           eq_refl).
Defined.






